(** * module-update-router: the HTTP routing layer of [routes.go]

    A shallow embedding of the request handlers ([handlePing],
    [handleChannel], [handleEvent], [handleAPI]), of the logging middleware
    ([log]) and of the route table built by [routes], followed by the
    properties the specification states about them.

    Conventions of the embedding.
    - Go strings are byte strings: [string].  Go [int] / [int64] values are
      [Z]; the only arithmetic on them is in [ParseInt], where the 64-bit
      wrap-around is written out.
    - A Go [error] is represented by its [Error()] text; [option error] is
      [nil] or an error.
    - A handler mutates its [http.ResponseWriter] and has effects on the
      logger, the metrics counter and the database.  It is a function in
      state-passing style that returns the writer and the effect traces, or
      panics. *)

From stdpp Require Import base strings list gmap.
From Stdlib Require Import ZArith Lia Ascii String.

Local Open Scope string_scope.
Local Open Scope Z_scope.

(** ** Results and errors *)

Definition error := string.

(** A computation either returns or panics (Go run-time panic). *)
Inductive Result (A : Type) : Type :=
| Done (a : A)
| Panicked (msg : string).
Arguments Done {A} a.
Arguments Panicked {A} msg.

Definition bind {A B} (m : Result A) (k : A -> Result B) : Result B :=
  match m with
  | Done a => k a
  | Panicked msg => Panicked msg
  end.

(** ** Byte-string helpers *)

Definition dquote : string := String (Ascii.ascii_of_N 34) EmptyString.

(** [strings.Split(s, sep)] for a one-byte separator. *)
Fixpoint split_on (sep : ascii) (s : string) : list string :=
  match s with
  | EmptyString => [EmptyString]
  | String c rest =>
      if Ascii.eqb c sep then EmptyString :: split_on sep rest
      else match split_on sep rest with
           | [] => [String c EmptyString]
           | hd :: tl => String c hd :: tl
           end
  end.

(** [strings.Join(elems, sep)]. *)
Fixpoint join_with (sep : string) (elems : list string) : string :=
  match elems with
  | [] => ""
  | [e] => e
  | e :: rest => e +:+ sep +:+ join_with sep rest
  end.

(** ** strconv.ParseInt(s, 10, 64) *)

Module strconv.

Inductive numErr := ErrSyntax | ErrRange.

Definition numErr_text (e : numErr) : string :=
  match e with
  | ErrSyntax => "invalid syntax"
  | ErrRange => "value out of range"
  end.

Definition maxUint64 : Z := 2 ^ 64 - 1.

Definition isDigit (c : ascii) : bool :=
  let n := Z.of_N (Ascii.N_of_ascii c) in (48 <=? n) && (n <=? 57).

Definition digitVal (c : ascii) : Z := Z.of_N (Ascii.N_of_ascii c) - 48.

(** The digit loop of [ParseUint] for base 10 and bit size 64.  Base 10 is
    given explicitly, so no prefix and no underscore is accepted; a letter
    is a digit value of at least 10 and is a syntax error like any other
    non-digit byte.  [n] is the [uint64] accumulator. *)
Fixpoint parseUint_loop (s : string) (n : Z) : Z * option numErr :=
  match s with
  | EmptyString => (n, None)
  | String c rest =>
      if negb (isDigit c) then (0, Some ErrSyntax)
      else if maxUint64 / 10 + 1 <=? n then (maxUint64, Some ErrRange)
      else
        let n := (n * 10) mod 2 ^ 64 in
        let n1 := (n + digitVal c) mod 2 ^ 64 in
        if (n1 <? n) || (maxUint64 <? n1) then (maxUint64, Some ErrRange)
        else parseUint_loop rest n1
  end.

Definition ParseUint (s : string) : Z * option numErr :=
  match s with
  | EmptyString => (0, Some ErrSyntax)
  | _ => parseUint_loop s 0
  end.

(** Conversion [int64(x)] of a 64-bit pattern. *)
Definition to_int64 (x : Z) : Z := (x + 2 ^ 63) mod 2 ^ 64 - 2 ^ 63.

(** [ParseInt(s, 10, 64)]: the value and the kind of error. *)
Definition ParseInt_kind (s0 : string) : Z * option numErr :=
  match s0 with
  | EmptyString => (0, Some ErrSyntax)
  | String c rest =>
      let '(neg, s) :=
        if Ascii.eqb c "+" then (false, rest)
        else if Ascii.eqb c "-" then (true, rest)
        else (false, s0) in
      match ParseUint s with
      | (_, Some ErrSyntax) => (0, Some ErrSyntax)
      | (un, _) =>
          let cutoff := 2 ^ 63 in
          if negb neg && (cutoff <=? un) then (cutoff - 1, Some ErrRange)
          else if neg && (cutoff <? un) then (- cutoff, Some ErrRange)
          else
            let n := to_int64 un in
            (if neg then to_int64 (- n) else n, None)
      end
  end.

Section Quote.
(** [strconv.Quote], used only inside error texts. *)
Variable Quote : string -> string.

(** The [Error()] text of a [NumError]. *)
Definition NumError_text (fn num : string) (e : numErr) : error :=
  "strconv." +:+ fn +:+ ": parsing " +:+ Quote num +:+ ": " +:+ numErr_text e.

Definition ParseInt (s : string) : Z * option error :=
  match ParseInt_kind s with
  | (n, None) => (n, None)
  | (n, Some e) => (n, Some (NumError_text "ParseInt" s e))
  end.
End Quote.

End strconv.

(** What [ParseInt] does with the result of [ParseUint] on the digits: the
    part of [strconv.ParseInt_kind] after the sign, as a function of its own
    for the proofs. *)
Definition signedResult (neg : bool) (r : Z * option strconv.numErr)
  : Z * option strconv.numErr :=
  match r with
  | (_, Some strconv.ErrSyntax) => (0, Some strconv.ErrSyntax)
  | (un, _) =>
      let cutoff := 2 ^ 63 in
      if negb neg && (cutoff <=? un) then (cutoff - 1, Some strconv.ErrRange)
      else if neg && (cutoff <? un) then (- cutoff, Some strconv.ErrRange)
      else
        let n := strconv.to_int64 un in
        (if neg then strconv.to_int64 (- n) else n, None)
  end.

(** ** Base-10 integers

    The reading of a text as a base-10 integer that the specification asks
    of the [limit] and [offset] parameters: an optional sign and one or
    more decimal digits, with the value they denote. *)

Fixpoint allDigits (s : string) : bool :=
  match s with
  | EmptyString => true
  | String c rest => strconv.isDigit c && allDigits rest
  end.

(** The value of the digits of [s] after the digits that gave [n]. *)
Fixpoint decimalFrom (n : Z) (s : string) : Z :=
  match s with
  | EmptyString => n
  | String c rest => decimalFrom (10 * n + strconv.digitVal c) rest
  end.

Definition unsigned10 (s : string) : option Z :=
  match s with
  | EmptyString => None
  | _ => if allDigits s then Some (decimalFrom 0 s) else None
  end.

Definition base10 (s : string) : option Z :=
  match s with
  | EmptyString => None
  | String c rest =>
      if Ascii.eqb c "+" then unsigned10 rest
      else if Ascii.eqb c "-" then Z.opp <$> unsigned10 rest
      else unsigned10 s
  end.

(** A base-10 integer that fits the 64-bit signed range. *)
Definition int64Of (s : string) : option Z :=
  match base10 s with
  | Some v => if (- 2 ^ 63 <=? v) && (v <? 2 ^ 63) then Some v else None
  | None => None
  end.

(** ** path.Join *)

Module path.

(** One path element of [path.Clean], on the stack of the elements kept so
    far (innermost first): empty and [.] elements are dropped, [..]
    removes the element before it, or is kept when the path is not rooted
    and there is no element to remove. *)
Definition clean_step (rooted : bool) (stack : list string) (elem : string)
  : list string :=
  if decide (elem = "") then stack
  else if decide (elem = ".") then stack
  else if decide (elem = "..") then
    match stack with
    | top :: rest =>
        if decide (top = "..") then (if rooted then stack else ".." :: stack)
        else rest
    | [] => if rooted then stack else [".."]
    end
  else elem :: stack.

Definition Clean (p : string) : string :=
  match p with
  | EmptyString => "."
  | String c _ =>
      let rooted := Ascii.eqb c "/" in
      let stack := fold_left (clean_step rooted) (split_on "/" p) [] in
      let body := join_with "/" (rev stack) in
      if rooted then "/" +:+ body
      else if decide (body = "") then "." else body
  end.

(** [path.Join(elem...)]: empty leading elements are skipped, the rest is
    joined with slashes and cleaned; all elements empty gives the empty
    string. *)
Definition Join (elem : list string) : string :=
  let buf :=
    fold_left (fun buf e =>
                 if decide (buf = "") then e else buf +:+ "/" +:+ e) elem "" in
  if decide (buf = "") then "" else Clean buf.

End path.

(** A path element that [path.Clean] keeps as it is. *)
Definition plainElement (c : string) : Prop :=
  c <> "" /\ c <> "." /\ c <> ".." /\ split_on "/" c = [c].

(** ** net/url query values *)

Module url.

(** The parts of a [url.URL] that the handlers read. *)
Record URL := mkURL {
  Path : string;
  RawQuery : string
}.

(** [url.Values] is [map[string][]string]. *)
Abbreviation Values := (gmap string (list string)).

(** [Values.Get]: the first value of the key, or the empty string. *)
Definition Get (v : Values) (key : string) : string :=
  match v !! key with
  | Some (x :: _) => x
  | _ => ""
  end.

Definition ishex (c : ascii) : bool :=
  let n := Z.of_N (Ascii.N_of_ascii c) in
  ((48 <=? n) && (n <=? 57)) || ((97 <=? n) && (n <=? 102))
  || ((65 <=? n) && (n <=? 70)).

Definition unhex (c : ascii) : Z :=
  let n := Z.of_N (Ascii.N_of_ascii c) in
  if (48 <=? n) && (n <=? 57) then n - 48
  else if (97 <=? n) && (n <=? 102) then n - 97 + 10
  else if (65 <=? n) && (n <=? 70) then n - 65 + 10
  else 0.

Section Quote.
Variable Quote : string -> string.

(** [QueryUnescape]: [%XX] is a byte, [+] is a space; a [%] that is not
    followed by two hex digits is an [EscapeError] on the (at most
    three) bytes from it. *)
Fixpoint QueryUnescape (s : string) : string * option error :=
  match s with
  | EmptyString => ("", None)
  | String c rest =>
      if Ascii.eqb c "%" then
        match rest with
        | String a (String b rest') =>
            if ishex a && ishex b then
              match QueryUnescape rest' with
              | (t, None) =>
                  (String (Ascii.ascii_of_N
                             (Z.to_N (unhex a * 16 + unhex b))) t, None)
              | (_, Some e) => ("", Some e)
              end
            else
              ("", Some ("invalid URL escape "
                         +:+ Quote (String c (String a (String b "")))))
        | _ => ("", Some ("invalid URL escape " +:+ Quote s))
        end
      else
        match QueryUnescape rest with
        | (t, None) =>
            (String (if Ascii.eqb c "+" then " "%char else c) t, None)
        | (_, Some e) => ("", Some e)
        end
  end.

Definition contains (c : ascii) (s : string) : bool :=
  bool_decide (c ∈ list_ascii_of_string s).

(** [strings.Cut(s, "=")]. *)
Fixpoint cut_eq (s : string) : string * string :=
  match s with
  | EmptyString => ("", "")
  | String c rest =>
      if Ascii.eqb c "=" then ("", rest)
      else let '(k, v) := cut_eq rest in (String c k, v)
  end.

(** One [&]-separated pair of [parseQuery], on the map and the error
    collected so far. *)
Definition parseQuery_step (acc : Values * option error) (pair : string)
  : Values * option error :=
  let '(m, err) := acc in
  if contains ";" pair then
    (m, Some "invalid semicolon separator in query")
  else if decide (pair = "") then acc
  else
    let '(key, value) := cut_eq pair in
    match QueryUnescape key with
    | (_, Some err1) => (m, match err with None => Some err1 | _ => err end)
    | (key, None) =>
        match QueryUnescape value with
        | (_, Some err1) =>
            (m, match err with None => Some err1 | _ => err end)
        | (value, None) =>
            (<[key := (default [] (m !! key) ++ [value])%list]> m, err)
        end
    end.

(** [url.ParseQuery] (Go 1.17 and later, where a semicolon in a pair is
    an error): the values that parsed, and the first error. *)
Definition ParseQuery (query : string) : Values * option error :=
  fold_left parseQuery_step (split_on "&" query) (∅, None).

(** [URL.Query]: the values that parsed; the error is dropped. *)
Definition Query (u : URL) : Values := fst (ParseQuery (RawQuery u)).
End Quote.

End url.

(** ** encoding/json of the [/channel] response *)

Module json.

Definition hexdigit (n : Z) : ascii :=
  Ascii.ascii_of_N (Z.to_N (if n <? 10 then 48 + n else 97 + n - 10)).

(** The encoder's escape of one byte of a string: the quote and the
    backslash get a backslash; bytes below 0x20 and the HTML bytes
    (less-than, greater-than, ampersand) get a [\u00XX] escape, except
    the short forms [\n], [\r] and [\t]; the other bytes are copied.
    Bytes from 0x80 are copied, as in valid UTF-8 other than U+2028 and
    U+2029. *)
Definition escape_byte (c : ascii) : string :=
  let n := Z.of_N (Ascii.N_of_ascii c) in
  if (n =? 34) || (n =? 92) then String "\" (String c "")
  else if n =? 10 then "\n"
  else if n =? 13 then "\r"
  else if n =? 9 then "\t"
  else if (n <? 32) || (n =? 60) || (n =? 62) || (n =? 38) then
    "\u00" +:+ String (hexdigit (n / 16)) (String (hexdigit (n mod 16)) "")
  else String c "".

Fixpoint escape (s : string) : string :=
  match s with
  | EmptyString => ""
  | String c rest => escape_byte c +:+ escape rest
  end.

Definition encodeString (s : string) : string :=
  dquote +:+ escape s +:+ dquote.

End json.

(** ** net/http: headers, response writers, requests *)

Module http.

Definition StatusOK : Z := 200.
Definition StatusCreated : Z := 201.
Definition StatusBadRequest : Z := 400.
Definition StatusUnauthorized : Z := 401.
Definition StatusNotFound : Z := 404.
Definition StatusMethodNotAllowed : Z := 405.
Definition StatusInternalServerError : Z := 500.

Definition MethodGet : string := "GET".
Definition MethodPost : string := "POST".

(** [http.Header] is [map[string][]string]; keys are taken in canonical
    form. *)
Abbreviation Header := (gmap string (list string)).

Definition Header_Get (h : Header) (key : string) : string :=
  match h !! key with
  | Some (x :: _) => x
  | _ => ""
  end.

Definition Header_Add (h : Header) (key value : string) : Header :=
  <[key := (default [] (h !! key) ++ [value])%list]> h.

Definition Header_Set (h : Header) (key value : string) : Header :=
  <[key := [value]]> h.

(** The server side of a connection: the header map the handler edits,
    the status line and header sent (once, by the first [WriteHeader] or
    [Write]), the body bytes sent, and the state of the link: with
    [broken = Some e] every [Write] fails with [e]. *)
Record conn := mkConn {
  header : Header;
  sent : option (Z * Header);
  body : string;
  broken : option error
}.

Definition conn_WriteHeader (c : conn) (code : Z) : conn :=
  match sent c with
  | Some _ => c
  | None => mkConn (header c) (Some (code, header c)) (body c) (broken c)
  end.

Definition conn_Write (c : conn) (data : string) : conn * option error :=
  let c := conn_WriteHeader c StatusOK in
  match broken c with
  | Some e => (c, Some e)
  | None => (mkConn (header c) (sent c) (body c +:+ data) None, None)
  end.

(** An [http.ResponseWriter] is the connection, or the [responseRecorder]
    of the logging middleware around another writer. *)
Inductive ResponseWriter :=
| connWriter (c : conn)
| responseRecorder (w : ResponseWriter) (Code : Z) (Body : string).

(** The connection at the bottom of a writer. *)
Fixpoint client (w : ResponseWriter) : conn :=
  match w with
  | connWriter c => c
  | responseRecorder w _ _ => client w
  end.

(** [f(w.Header())] for an update [f] of the header map. *)
Fixpoint with_Header (f : Header -> Header) (w : ResponseWriter)
  : ResponseWriter :=
  match w with
  | connWriter c => connWriter (mkConn (f (header c)) (sent c) (body c) (broken c))
  | responseRecorder w code b => responseRecorder (with_Header f w) code b
  end.

(** Modelled from the spec: the [responseRecorder] type is declared outside
    routes.go; it wraps the response writer to capture status code and
    body for logging, and all writes pass through to the real client
    unchanged.  [WriteHeader] stores the code and [Write] appends to the
    captured body before they reach the wrapped writer. *)
Fixpoint WriteHeader (w : ResponseWriter) (code : Z) : ResponseWriter :=
  match w with
  | connWriter c => connWriter (conn_WriteHeader c code)
  | responseRecorder w _ b => responseRecorder (WriteHeader w code) code b
  end.

Fixpoint Write (w : ResponseWriter) (data : string)
  : ResponseWriter * option error :=
  match w with
  | connWriter c => let '(c, err) := conn_Write c data in (connWriter c, err)
  | responseRecorder w code b =>
      let '(w, err) := Write w data in
      (responseRecorder w code (b +:+ data), err)
  end.

(** Modelled from the spec: [newResponseRecorder] is declared outside
    routes.go; the recorder starts with status 200 and an empty body, as
    a response that never calls [WriteHeader] has. *)
Definition newResponseRecorder (w : ResponseWriter) : ResponseWriter :=
  responseRecorder w StatusOK "".

(** The fields [rr.Code] and [rr.Body] and the wrapped writer of a
    recorder; on a writer that is no recorder, what its connection holds. *)
Definition Code (rr : ResponseWriter) : Z :=
  match rr with
  | responseRecorder _ code _ => code
  | connWriter c => match sent c with Some (code, _) => code | None => StatusOK end
  end.

Definition Body (rr : ResponseWriter) : string :=
  match rr with
  | responseRecorder _ _ b => b
  | connWriter c => body c
  end.

Definition unwrap (rr : ResponseWriter) : ResponseWriter :=
  match rr with
  | responseRecorder w _ _ => w
  | connWriter _ => rr
  end.

(** What the client has received: status, header and body. *)
Definition status (w : ResponseWriter) : Z :=
  match sent (client w) with
  | Some (code, _) => code
  | None => 0
  end.

Definition sentHeader (w : ResponseWriter) : Header :=
  match sent (client w) with
  | Some (_, h) => h
  | None => ∅
  end.

Definition sentBody (w : ResponseWriter) : string := body (client w).

(** Nothing has been sent on the connection of the writer yet. *)
Definition unsent (w : ResponseWriter) : Prop :=
  sent (client w) = None /\ body (client w) = "".

(** Writes to the client succeed. *)
Definition linkUp (w : ResponseWriter) : Prop := broken (client w) = None.

(** A writer on a fresh connection whose link works. *)
Definition freshConn : conn := mkConn ∅ None "" None.
Definition fresh : ResponseWriter := connWriter freshConn.

End http.

Module identity.

(** The identity of the caller: [OrgID] is a string, [Type] a pointer to
    a string ([None] is the nil pointer). *)
Record Identity := mkIdentity {
  OrgID : string;
  Type_ : option string
}.

Record XRHID := mkXRHID {
  Identity_ : Identity
}.

End identity.

(** An [*http.Request]: the fields the handlers read, and the identity that
    the authentication middleware left in its context. *)
Record Request := mkRequest {
  Method : string;
  URL : url.URL;
  Host : string;
  Header : http.Header;
  Body : string;
  ctxIdentity : identity.XRHID * option error
}.

(** Modelled from the spec: [identity.GetIdentity] is in the repository's
    identity package, outside routes.go; it extracts the identity of a
    request, or fails. *)
Definition GetIdentity (r : Request) : identity.XRHID * option error :=
  ctxIdentity r.

(** ** logrus *)

Module logrus.

Inductive Level :=
| PanicLevel | FatalLevel | ErrorLevel | WarnLevel
| InfoLevel | DebugLevel | TraceLevel.

Inductive Value := VString (s : string) | VInt (n : Z).

Record Entry := mkEntry {
  level : Level;
  message : string;
  fields : list (string * Value)
}.

End logrus.

(** ** The effects of a request outside its response *)

Inductive DBQuery :=
| QueryCount (module orgID : string)
| QueryGetEvents (limit offset : Z).

(** The log lines written, the labels given to [incRequests] and the
    database queries made, each in the order of the calls. *)
Record World := mkWorld {
  entries : list logrus.Entry;
  requestsTotal : list string;
  queries : list DBQuery
}.

Definition emit (e : logrus.Entry) (σ : World) : World :=
  mkWorld (entries σ ++ [e])%list (requestsTotal σ) (queries σ).

(** [log.Error(err)] and [log.Errorf(format, ...)] with the text already
    formatted. *)
Definition log_Error (msg : string) (σ : World) : World :=
  emit (logrus.mkEntry logrus.ErrorLevel msg []) σ.

(** Modelled from the spec: [incRequests] is declared outside routes.go; it
    emits a metrics counter keyed by the chosen target path. *)
Definition incRequests (label : string) (σ : World) : World :=
  mkWorld (entries σ) (requestsTotal σ ++ [label])%list (queries σ).

Definition query (q : DBQuery) (σ : World) : World :=
  mkWorld (entries σ) (requestsTotal σ) (queries σ ++ [q])%list.

Definition emptyWorld : World := mkWorld [] [] [].

(** [http.HandlerFunc]. *)
Definition HandlerFunc : Type :=
  http.ResponseWriter -> Request -> World -> Result (http.ResponseWriter * World).

(** ** http.ServeMux *)

Abbreviation ServeMux := (gmap string HandlerFunc).

(** [ServeMux.HandleFunc] panics on an empty pattern and on a pattern that
    is already registered. *)
Definition HandleFunc (mux : ServeMux) (pattern : string) (handler : HandlerFunc)
  : Result ServeMux :=
  if decide (pattern = "") then Panicked "http: invalid pattern"
  else match mux !! pattern with
       | Some _ => Panicked ("http: multiple registrations for " +:+ pattern)
       | None => Done (<[pattern := handler]> mux)
       end.

Definition newline : string := String (Ascii.ascii_of_N 10) EmptyString.

(** [http.NotFound]. *)
Definition NotFound : HandlerFunc := fun w r σ =>
  let w := http.with_Header
             (fun h => http.Header_Set
                         (http.Header_Set h "Content-Type" "text/plain; charset=utf-8")
                         "X-Content-Type-Options" "nosniff") w in
  let w := http.WriteHeader w http.StatusNotFound in
  let '(w, _) := http.Write w ("404 page not found" +:+ newline) in
  Done (w, σ).

Definition endsWithSlash (p : string) : bool :=
  match last (list_ascii_of_string p) with
  | Some c => Ascii.eqb c "/"
  | None => false
  end.

(** [cleanPath] of net/http: the canonical form of a request path, with a
    leading slash, without empty, [.] and [..] elements, and with the
    trailing slash kept.  [ServeMux] redirects a request whose path is not
    in this form. *)
Definition cleanPath (p : string) : string :=
  match p with
  | EmptyString => "/"
  | String c _ =>
      let p := if Ascii.eqb c "/" then p else "/" +:+ p in
      let np := path.Clean p in
      if endsWithSlash p && negb (bool_decide (np = "/")) then
        if (String.length p =? String.length np + 1)%nat && String.prefix np p
        then p
        else np +:+ "/"
      else np
  end.

(** A host name without a slash.  The server of net/http refuses a request
    whose Host header has one. *)
Definition noSlash (host : string) : bool :=
  forallb (fun c => negb (Ascii.eqb c "/")) (list_ascii_of_string host).

(** The longest registered pattern that ends in a slash and is a prefix of
    the path. *)
Definition subtreeMatch (mux : ServeMux) (path : string)
  : option (string * HandlerFunc) :=
  foldr (fun e best =>
           if endsWithSlash e.1 && String.prefix e.1 path
              && match best with
                 | Some b => (String.length b.1 <? String.length e.1)%nat
                 | None => true
                 end
           then Some e else best)
        None (map_to_list mux).

(** [ServeMux.ServeHTTP] on a request whose path is already clean: the
    handler of the pattern equal to the path, else of the longest subtree
    pattern above it, else [NotFound].  Host-specific patterns and the
    redirects to a cleaned path are outside this model.  It is the
    [ServeMux] of net/http, as it was before patterns had methods and
    wildcards, for the requests that this one neither redirects nor routes
    by host: every registered pattern begins with a slash, the request is
    no CONNECT, its host has no slash, its path is its own [cleanPath],
    and the path followed by a slash is no registered pattern.  The
    properties of the routing below are stated under these conditions. *)
Definition ServeMux_ServeHTTP (mux : ServeMux) : HandlerFunc := fun w r σ =>
  match mux !! url.Path (URL r) with
  | Some h => h w r σ
  | None =>
      match subtreeMatch mux (url.Path (URL r)) with
      | Some e => e.2 w r σ
      | None => NotFound w r σ
      end
  end.

(** ** The server of routes.go *)

(** What routes.go takes from outside the file and the standard library
    gives no fixed answer for: the event records and their JSON encoding,
    the text functions of the standard library that only shape messages,
    the handlers of the three external middleware packages, and the body
    that the error envelope writes. *)
Class Externals := {
  (** The event records are owned by the persistence layer. *)
  Event : Type;
  (** [json.Marshal(&events)]. *)
  marshalEvents : list Event -> string * option error;
  (** [strconv.Quote], inside the parsers' error texts. *)
  Quote : string -> string;
  (** [URL.String]. *)
  URL_String : url.URL -> string;
  (** [identity.Identify], [request_id.RequestID] and the metrics
      middleware's [Handler]. *)
  identity_Identify : HandlerFunc -> HandlerFunc;
  request_RequestID : HandlerFunc -> HandlerFunc;
  middleware_Handler : string -> HandlerFunc -> HandlerFunc;
  (** The JSON body that [formatJSONError] writes for a status code and a
      message. *)
  errorBody : Z -> string -> string
}.

Section Routes.
Context `{Externals}.

(** Modelled from the spec: the [DB] type is declared outside routes.go; the
    persistence component is a count lookup (module, org) and an event
    store with append and paginated read.  No handler of routes.go calls
    the append. *)
Record DB := mkDB {
  Count : string -> string -> Z * option error;
  GetEvents : Z -> Z -> list Event * option error;
  InsertEvent : string -> option error
}.

(** The [events] channel of the Go struct is not read or written by the
    code of routes.go and is left out. *)
Record Server := mkServer {
  mux : ServeMux;
  db : DB;
  addr : string
}.

(** Modelled from the spec: [formatJSONError] is declared outside
    routes.go; it formats a uniform JSON error body, returned with the
    stated HTTP status and Content-Type application/json. *)
Definition formatJSONError (w : http.ResponseWriter) (code : Z) (message : string)
  : http.ResponseWriter :=
  let w := http.with_Header
             (fun h => http.Header_Set h "Content-Type" "application/json") w in
  let w := http.WriteHeader w code in
  (http.Write w (errorBody code message)).1.

Definition cannotWrite (err : error) : string :=
  "cannot write HTTP response: " +:+ err.

(** [w.Write(data)] followed by the log line of a failed write. *)
Definition writeOrLog (w : http.ResponseWriter) (data : string) (σ : World)
  : http.ResponseWriter * World :=
  let '(w, err) := http.Write w data in
  match err with
  | Some e => (w, log_Error (cannotWrite e) σ)
  | None => (w, σ)
  end.

Definition handlePing (s : Server) : HandlerFunc := fun w r σ =>
  Done (writeOrLog w "OK" σ).

(** The [response] struct of [handleChannel] and its [json.Marshal]. *)
Record response := mkResponse { response_URL : string }.

Definition marshalResponse (resp : response) : string * option error :=
  ("{" +:+ dquote +:+ "url" +:+ dquote +:+ ":"
       +:+ json.encodeString (response_URL resp) +:+ "}", None).

Definition handleChannel (s : Server) : HandlerFunc := fun w r σ =>
  let module := url.Get (url.Query Quote (URL r)) "module" in
  if (String.length module <? 1)%nat then
    Done (formatJSONError w http.StatusBadRequest
            "missing required parameter: 'module'", σ)
  else
    let resp := mkResponse "/release" in
    let '(id, err) := GetIdentity r in
    match err with
    | Some e => Done (formatJSONError w http.StatusInternalServerError e, σ)
    | None =>
        let orgID := identity.OrgID (identity.Identity_ id) in
        if decide (orgID = "") then
          Done (formatJSONError w http.StatusBadRequest
                  "missing org_id identity field", σ)
        else
          let '(count, err) := Count (db s) module orgID in
          let σ := query (QueryCount module orgID) σ in
          let σ := match err with
                   | Some e => log_Error e σ
                   | None => σ
                   end in
          let resp := if 0 <? count then mkResponse "/testing" else resp in
          let '(data, err) := marshalResponse resp in
          match err with
          | Some e => Done (formatJSONError w http.StatusInternalServerError e, σ)
          | None =>
              let σ := incRequests (response_URL resp) σ in
              let w := http.with_Header
                         (fun h => http.Header_Add h "Content-Type" "application/json")
                         w in
              Done (writeOrLog w data σ)
          end
    end.

Definition nilDereference : string :=
  "runtime error: invalid memory address or nil pointer dereference".

(** [limit] and [offset] of a GET on [/event]: the first value of the
    parameter, or the default when that is empty, through [ParseInt]. *)
Definition paramInt (params : url.Values) (key default : string)
  : Z * option error :=
  let p := url.Get params key in
  let p := if decide (p = "") then default else p in
  strconv.ParseInt Quote p.

Definition handleEvent (s : Server) : HandlerFunc := fun w r σ =>
  if decide (Method r = http.MethodPost) then
    Done (http.WriteHeader w http.StatusCreated, σ)
  else if decide (Method r = http.MethodGet) then
    let '(id, err) := GetIdentity r in
    match err with
    | Some e => Done (formatJSONError w http.StatusInternalServerError e, σ)
    | None =>
        match identity.Type_ (identity.Identity_ id) with
        | None => Panicked nilDereference
        | Some type =>
            if decide (type ≠ "Associate") then
              Done (formatJSONError w http.StatusUnauthorized "", σ)
            else
              let '(params, err) := url.ParseQuery Quote (url.RawQuery (URL r)) in
              match err with
              | Some e => Done (formatJSONError w http.StatusBadRequest e, σ)
              | None =>
                  let '(limit, err) := paramInt params "limit" "-1" in
                  match err with
                  | Some e => Done (formatJSONError w http.StatusBadRequest e, σ)
                  | None =>
                      let '(offset, err) := paramInt params "offset" "0" in
                      match err with
                      | Some e =>
                          Done (formatJSONError w http.StatusBadRequest e, σ)
                      | None =>
                          (* int(limit), int(offset): [int] has 64 bits *)
                          let '(events, err) := GetEvents (db s) limit offset in
                          let σ := query (QueryGetEvents limit offset) σ in
                          match err with
                          | Some e =>
                              Done (formatJSONError w
                                      http.StatusInternalServerError e, σ)
                          | None =>
                              let '(data, err) := marshalEvents events in
                              match err with
                              | Some e =>
                                  Done (formatJSONError w
                                          http.StatusInternalServerError e, σ)
                              | None =>
                                  let w := http.with_Header
                                             (fun h => http.Header_Add h
                                                         "Content-Type"
                                                         "application/json") w in
                                  Done (writeOrLog w data σ)
                              end
                          end
                      end
                  end
              end
        end
    end
  else
    Done (formatJSONError w http.StatusMethodNotAllowed
            ("error: '" +:+ Method r +:+ "' not allowed"), σ).

(** The [switch] of [log] on the recorded status: the first case that holds
    is taken. *)
Definition logLevel (code : Z) : logrus.Level :=
  if 400 <=? code then logrus.WarnLevel
  else if 500 <=? code then logrus.ErrorLevel
  else logrus.InfoLevel.

(** [responseBody[:1024]] when the body is longer than 1024 bytes. *)
Definition truncateBody (responseBody : string) : string :=
  if (1024 <? String.length responseBody)%nat
  then String.substring 0 1024 responseBody
  else responseBody.

(** The fields of the log line of a request; the [duration] field is a
    reading of the clock and is left out. *)
Definition logFields (r : Request) (code : Z) (responseBody : string)
  : list (string * logrus.Value) :=
  [ ("ident", logrus.VString (Host r));
    ("method", logrus.VString (Method r));
    ("referer", logrus.VString (http.Header_Get (Header r) "Referer"));
    ("url", logrus.VString (URL_String (URL r)));
    ("user-agent", logrus.VString (http.Header_Get (Header r) "User-Agent"));
    ("status", logrus.VInt code);
    ("response", logrus.VString responseBody);
    ("request-id", logrus.VString (http.Header_Get (Header r) "X-Request-Id")) ].

Definition log (s : Server) (next : HandlerFunc) : HandlerFunc := fun w r σ =>
  let rr := http.newResponseRecorder w in
  match next rr r σ with
  | Panicked msg => Panicked msg
  | Done (rr, σ) =>
      let level := logLevel (http.Code rr) in
      let responseBody := truncateBody (http.Body rr) in
      Done (http.unwrap rr,
            emit (logrus.mkEntry level ""
                    (logFields r (http.Code rr) responseBody)) σ)
  end.

Definition requestID (s : Server) (next : HandlerFunc) : HandlerFunc :=
  fun w r σ => request_RequestID next w r σ.

Definition auth (s : Server) (next : HandlerFunc) : HandlerFunc :=
  fun w r σ => identity_Identify next w r σ.

Definition metrics (s : Server) (next : HandlerFunc) : HandlerFunc :=
  fun w r σ => middleware_Handler "" next w r σ.

Definition handleAPI (s : Server) (prefix : string) : Result HandlerFunc :=
  bind (HandleFunc ∅ (path.Join [prefix; "channel"]) (handleChannel s)) (fun m =>
  bind (HandleFunc m (path.Join [prefix; "event"]) (handleEvent s)) (fun m =>
  Done (fun w r σ => ServeMux_ServeHTTP m w r σ))).

(** The middleware pipeline that [routes] puts around an API handler. *)
Definition pipeline (s : Server) (api : HandlerFunc) : HandlerFunc :=
  metrics s (requestID s (log s (auth s api))).

(** The loop of [routes] over the prefixes. *)
Fixpoint routes_prefixes (s : Server) (m : ServeMux) (prefixes : list string)
  : Result ServeMux :=
  match prefixes with
  | [] => Done m
  | prefix :: rest =>
      bind (handleAPI s prefix) (fun api =>
      bind (HandleFunc m (prefix +:+ "/")
              (metrics s (requestID s (log s (auth s api))))) (fun m =>
      routes_prefixes s m rest))
  end.

Definition routes (s : Server) (prefixes : list string) : Result Server :=
  bind (HandleFunc (mux s) "/ping" (handlePing s)) (fun m =>
  bind (routes_prefixes s m prefixes) (fun m =>
  Done (mkServer m (db s) (addr s)))).

Definition NewServer (addr : string) (apiroots : list string) (db : DB)
  : Result Server :=
  routes (mkServer ∅ db addr) apiroots.

Definition ServeHTTP (s : Server) : HandlerFunc :=
  fun w r σ => ServeMux_ServeHTTP (mux s) w r σ.

End Routes.

(** The status and the body that the client has received, when the
    handler returned. *)
Definition responseOf (res : Result (http.ResponseWriter * World))
  : option (Z * string) :=
  match res with
  | Done (w, _) => Some (http.status w, http.sentBody w)
  | Panicked _ => None
  end.

(** The body of the [/channel] response for a target. *)
Definition channelBody (target : string) : string :=
  "{" +:+ dquote +:+ "url" +:+ dquote +:+ ":" +:+ dquote +:+ target +:+ dquote +:+ "}".

(** ** A concrete setting for the examples

    The properties below hold for every instance of [Externals], every
    database and every request.  The examples evaluate the handlers in
    this setting: events are strings, [Quote] puts its argument between
    double quotes (as [strconv.Quote] does on printable text that has no
    quote and no backslash), the authentication middleware answers 400
    when the request carries no valid identity, and the other two
    middlewares only call the handler they wrap. *)

Definition sampleQuote (s : string) : string := dquote +:+ s +:+ dquote.

Definition sampleMarshalEvents (events : list string) : string * option error :=
  ("[" +:+ join_with "," (map json.encodeString events) +:+ "]", None).

Definition sampleURLString (u : url.URL) : string :=
  url.Path u +:+
  (if decide (url.RawQuery u = "") then "" else "?" +:+ url.RawQuery u).

Definition sampleIdentify (next : HandlerFunc) : HandlerFunc := fun w r σ =>
  match (ctxIdentity r).2 with
  | Some e =>
      Done ((http.Write (http.WriteHeader w http.StatusBadRequest)
               ("Bad Request: " +:+ e)).1, σ)
  | None => next w r σ
  end.

(** Modelled from the spec: the body that [formatJSONError], declared
    outside routes.go, writes: a JSON object with a message field. *)
Definition sampleErrorBody (code : Z) (message : string) : string :=
  "{" +:+ dquote +:+ "message" +:+ dquote +:+ ":"
      +:+ json.encodeString message +:+ "}".

Definition sample : Externals := {|
  Event := string;
  marshalEvents := sampleMarshalEvents;
  Quote := sampleQuote;
  URL_String := sampleURLString;
  identity_Identify := sampleIdentify;
  request_RequestID := fun next => next;
  middleware_Handler := fun _ next => next;
  errorBody := sampleErrorBody
|}.

(** A database that answers every count with [n] and lists two events. *)
Definition countingDB (n : Z) : @DB sample :=
  @mkDB sample
        (fun _ _ => (n, None))
        (fun _ _ => (["first"; "second"], None))
        (fun _ => None).

(** A database whose every operation reports an error; the count lookup
    returns [n] beside its error. *)
Definition failingDB (n : Z) : @DB sample :=
  @mkDB sample
        (fun _ _ => (n, Some "sql: database is closed"))
        (fun _ _ => ([], Some "sql: database is closed"))
        (fun _ => Some "sql: database is closed").

Definition sampleServer (d : @DB sample) : @Server sample :=
  @mkServer sample ∅ d ":8080".

Definition identityOf (orgID : string) (type : option string)
  : identity.XRHID * option error :=
  (identity.mkXRHID (identity.mkIdentity orgID type), None).

Definition noIdentity : identity.XRHID * option error :=
  (identity.mkXRHID (identity.mkIdentity "" None), Some "missing identity header").

Definition sampleRequest (method path rawQuery : string)
  (id : identity.XRHID * option error) : Request :=
  mkRequest method (url.mkURL path rawQuery) "router.example" ∅ "" id.

(** The requests of the examples. *)
Definition channelRequest : Request :=
  sampleRequest "GET" "/api/channel" "module=insights-core"
    (identityOf "acct-1" (Some "User")).

Definition postEvent : Request :=
  mkRequest "POST" (url.mkURL "/api/event" "") "router.example" ∅ "{}"
    (identityOf "acct-1" (Some "User")).

Definition listEvents (rawQuery : string) (type : option string) : Request :=
  sampleRequest "GET" "/api/event" rawQuery (identityOf "acct-1" type).

Definition putEvent : Request :=
  sampleRequest "PUT" "/api/event" "" (identityOf "acct-1" (Some "Associate")).

(** The levels of the log lines of a run. *)
Definition levelsOf (res : Result (http.ResponseWriter * World))
  : list logrus.Level :=
  match res with
  | Done (_, σ) => logrus.level <$> entries σ
  | Panicked _ => []
  end.

(** A connection to a client that has gone away: every write fails. *)
Definition brokenWriter : http.ResponseWriter :=
  http.connWriter (http.mkConn ∅ None "" (Some "write: broken pipe")).

(** A handler that behaves on a recorder as on the writer below it: same
    effects, same writes to the writer below, same panic. *)
Definition writesThrough (h : HandlerFunc) : Prop :=
  forall w r σ code b,
    match h w r σ with
    | Done (w', σ') =>
        exists code' b',
          h (http.responseRecorder w code b) r σ
          = Done (http.responseRecorder w' code' b', σ')
    | Panicked msg => h (http.responseRecorder w code b) r σ = Panicked msg
    end.

(** * Properties *)

(** ** strconv.ParseInt reads base-10 integers *)

Lemma digitVal_range c :
  strconv.isDigit c = true -> 0 <= strconv.digitVal c <= 9.
Proof.
  unfold strconv.isDigit, strconv.digitVal. intros Hd.
  apply andb_prop in Hd as [Hlo Hhi].
  apply Z.leb_le in Hlo. apply Z.leb_le in Hhi. lia.
Qed.

Lemma decimalFrom_ge s : forall n,
  0 <= n -> allDigits s = true -> n <= decimalFrom n s.
Proof.
  induction s as [|c s IH]; intros n Hn Hs; cbn [decimalFrom]; [lia|].
  cbn [allDigits] in Hs. apply andb_prop in Hs as [Hc Hs].
  pose proof (digitVal_range c Hc).
  specialize (IH (10 * n + strconv.digitVal c) ltac:(lia) Hs). lia.
Qed.

Lemma pow64 : 2 ^ 64 = 18446744073709551616.
Proof. reflexivity. Qed.

Lemma pow63 : 2 ^ 63 = 9223372036854775808.
Proof. reflexivity. Qed.

Lemma cutoff64 : strconv.maxUint64 / 10 + 1 = 1844674407370955162.
Proof. reflexivity. Qed.

(** One round of the digit loop on a digit, when neither overflow check
    fires: the accumulator is multiplied by ten and the digit added. *)
Lemma parseUint_loop_step c rest n :
  strconv.isDigit c = true ->
  0 <= n ->
  10 * n + strconv.digitVal c < 2 ^ 64 ->
  strconv.parseUint_loop (String c rest) n
  = strconv.parseUint_loop rest (10 * n + strconv.digitVal c).
Proof.
  intros Hc Hn Hlt. pose proof (digitVal_range c Hc) as Hd.
  cbn [strconv.parseUint_loop]. rewrite Hc. cbn [negb].
  rewrite cutoff64. rewrite pow64 in *.
  assert (Hcut : (1844674407370955162 <=? n) = false) by (apply Z.leb_gt; lia).
  rewrite Hcut.
  rewrite (Z.mod_small (n * 10)) by lia.
  rewrite (Z.mod_small (n * 10 + strconv.digitVal c)) by lia.
  assert (H1 : (n * 10 + strconv.digitVal c <? n * 10) = false)
    by (apply Z.ltb_ge; lia).
  assert (H2 : (strconv.maxUint64 <? n * 10 + strconv.digitVal c) = false)
    by (apply Z.ltb_ge; unfold strconv.maxUint64; lia).
  rewrite H1, H2. cbn [orb]. f_equal. lia.
Qed.

Lemma parseUint_loop_complete s : forall n,
  0 <= n -> allDigits s = true -> decimalFrom n s < 2 ^ 64 ->
  strconv.parseUint_loop s n = (decimalFrom n s, None).
Proof.
  induction s as [|c s IH]; intros n Hn Hs Hlt; [reflexivity|].
  cbn [allDigits] in Hs. apply andb_prop in Hs as [Hc Hs].
  pose proof (digitVal_range c Hc) as Hd. cbn [decimalFrom] in *.
  pose proof (decimalFrom_ge s (10 * n + strconv.digitVal c) ltac:(lia) Hs).
  rewrite parseUint_loop_step by (assumption || lia).
  apply IH; [lia|assumption|assumption].
Qed.

Lemma parseUint_loop_sound s : forall n v,
  0 <= n < 2 ^ 64 ->
  strconv.parseUint_loop s n = (v, None) ->
  allDigits s = true /\ v = decimalFrom n s /\ v < 2 ^ 64.
Proof.
  induction s as [|c s IH]; intros n v Hn Hrun.
  - cbn in Hrun. injection Hrun as <-. cbn. repeat split; lia.
  - cbn [strconv.parseUint_loop] in Hrun.
    destruct (strconv.isDigit c) eqn:Hc; cbn [negb] in Hrun; [|discriminate].
    pose proof (digitVal_range c Hc) as Hd.
    rewrite cutoff64 in Hrun. rewrite pow64 in *.
    destruct (1844674407370955162 <=? n) eqn:Hcut; [discriminate|].
    apply Z.leb_gt in Hcut.
    rewrite (Z.mod_small (n * 10)) in Hrun by lia.
    destruct ((n * 10 + strconv.digitVal c) mod 18446744073709551616 <? n * 10)
      eqn:Hwrap; cbn [orb] in Hrun; [discriminate|].
    destruct (strconv.maxUint64 <? _) eqn:Hmax; [discriminate|].
    apply Z.ltb_ge in Hwrap.
    assert (Hsmall : n * 10 + strconv.digitVal c < 18446744073709551616).
    { destruct (Z.lt_ge_cases (n * 10 + strconv.digitVal c) 18446744073709551616)
        as [|Hbig]; [assumption|exfalso].
      assert (Hm : (n * 10 + strconv.digitVal c) mod 18446744073709551616
                   = n * 10 + strconv.digitVal c - 18446744073709551616).
      { symmetry. apply (Z.mod_unique _ _ 1); lia. }
      lia. }
    rewrite (Z.mod_small (n * 10 + strconv.digitVal c)) in Hrun by lia.
    assert (Hn' : 0 <= n * 10 + strconv.digitVal c < 18446744073709551616)
      by lia.
    destruct (IH _ _ Hn' Hrun) as (Hs & Hv & Hlt).
    cbn [allDigits decimalFrom]. rewrite Hc, Hs. repeat split.
    + rewrite Hv. f_equal. lia.
    + exact Hlt.
Qed.

Lemma ParseUint_success s v :
  strconv.ParseUint s = (v, None) <-> unsigned10 s = Some v /\ v < 2 ^ 64.
Proof.
  destruct s as [|c s]; [split; [discriminate|intros [[=] _]]|].
  unfold strconv.ParseUint, unsigned10. split.
  - intros Hrun.
    apply parseUint_loop_sound in Hrun as (-> & -> & Hlt); [auto|rewrite pow64; lia].
  - destruct (allDigits (String c s)) eqn:Hs; [|intros [[=] _]].
    intros [Hv Hlt]. assert (v = decimalFrom 0 (String c s)) as -> by congruence.
    apply parseUint_loop_complete; [lia|exact Hs|exact Hlt].
Qed.

Lemma parseUint_loop_range s : forall n v,
  strconv.parseUint_loop s n = (v, Some strconv.ErrRange) ->
  v = strconv.maxUint64.
Proof.
  induction s as [|c s IH]; intros n v Hrun; [discriminate|].
  cbn [strconv.parseUint_loop] in Hrun.
  destruct (negb (strconv.isDigit c)); [discriminate|].
  destruct (_ <=? n); [congruence|].
  destruct (_ || _); [congruence|]. eauto.
Qed.

Lemma to_int64_small x : - 2 ^ 63 <= x < 2 ^ 63 -> strconv.to_int64 x = x.
Proof.
  intros Hx. unfold strconv.to_int64. rewrite pow63, pow64 in *.
  rewrite Z.mod_small by lia. lia.
Qed.

(** The negation of the least 64-bit integer wraps around to itself. *)
Lemma to_int64_neg_min :
  strconv.to_int64 (- strconv.to_int64 9223372036854775808)
  = - 9223372036854775808.
Proof. reflexivity. Qed.

Lemma signedResult_success neg s v :
  signedResult neg (strconv.ParseUint s) = (v, None)
  <-> exists u, unsigned10 s = Some u
                /\ v = (if neg then - u else u)
                /\ - 2 ^ 63 <= v < 2 ^ 63.
Proof.
  assert (Hnonneg : forall u, unsigned10 s = Some u -> 0 <= u).
  { intros u Hu. destruct s as [|c s]; [discriminate|]. unfold unsigned10 in Hu.
    destruct (allDigits (String c s)) eqn:Hs; [|discriminate].
    assert (u = decimalFrom 0 (String c s)) as -> by congruence.
    apply decimalFrom_ge; [lia|exact Hs]. }
  assert (Hfail : forall un e, strconv.ParseUint s = (un, Some e) ->
                  ~ exists u, unsigned10 s = Some u
                              /\ v = (if neg then - u else u)
                              /\ - 2 ^ 63 <= v < 2 ^ 63).
  { intros un e He (u & Hu & Hv & Hr). pose proof (Hnonneg u Hu).
    assert (Hlt : u < 2 ^ 64) by (rewrite pow63 in Hr; rewrite pow64; destruct neg; lia).
    pose proof (proj2 (ParseUint_success s u) (conj Hu Hlt)) as Hok.
    rewrite Hok in He. discriminate. }
  destruct (strconv.ParseUint s) as [un [[]|]] eqn:Hrun; cbn [signedResult].
  - split; [discriminate|]. intros Hex. now apply (Hfail _ _ eq_refl) in Hex.
  - assert (un = strconv.maxUint64) as ->.
    { destruct s as [|c s]; [discriminate|].
      now apply parseUint_loop_range in Hrun. }
    split; [|intros Hex; now apply (Hfail _ _ eq_refl) in Hex].
    destruct neg; cbn; discriminate.
  - apply ParseUint_success in Hrun as [Hu Hlt]. pose proof (Hnonneg un Hu) as H0.
    rewrite pow63, pow64 in *.
    destruct neg; cbn [negb andb].
    + destruct (9223372036854775808 <? un) eqn:Hc.
      * apply Z.ltb_lt in Hc. split; [discriminate|].
        intros (u & Hu' & -> & Hr). assert (u = un) by congruence. lia.
      * apply Z.ltb_ge in Hc. split.
        -- intros [= <-]. exists un. split; [exact Hu|].
           destruct (Z.eq_dec un 9223372036854775808) as [->|Hne].
           ++ rewrite to_int64_neg_min. lia.
           ++ rewrite (to_int64_small un) by (rewrite pow63; lia).
              rewrite to_int64_small by (rewrite pow63; lia). lia.
        -- intros (u & Hu' & -> & Hr). assert (u = un) as -> by congruence.
           f_equal. destruct (Z.eq_dec un 9223372036854775808) as [->|Hne].
           ++ apply to_int64_neg_min.
           ++ rewrite (to_int64_small un) by (rewrite pow63; lia).
              now rewrite to_int64_small by (rewrite pow63; lia).
    + destruct (9223372036854775808 <=? un) eqn:Hc.
      * apply Z.leb_le in Hc. split; [discriminate|].
        intros (u & Hu' & -> & Hr). assert (u = un) by congruence. lia.
      * apply Z.leb_gt in Hc. rewrite to_int64_small by (rewrite pow63; lia).
        split.
        -- intros [= <-]. exists un. repeat split; [exact Hu|lia|lia].
        -- intros (u & Hu' & -> & Hr). congruence.
Qed.

Lemma ParseInt_kind_signed c rest :
  strconv.ParseInt_kind (String c rest)
  = if Ascii.eqb c "+" then signedResult false (strconv.ParseUint rest)
    else if Ascii.eqb c "-" then signedResult true (strconv.ParseUint rest)
    else signedResult false (strconv.ParseUint (String c rest)).
Proof.
  unfold strconv.ParseInt_kind, signedResult.
  destruct (Ascii.eqb c "+"); [reflexivity|].
  destruct (Ascii.eqb c "-"); reflexivity.
Qed.

(** [ParseInt] returns a value without error exactly on the base-10
    integers of the 64-bit signed range, and the value is the integer. *)
Lemma ParseInt_kind_success s v :
  strconv.ParseInt_kind s = (v, None) <-> int64Of s = Some v.
Proof.
  assert (Hrange : forall neg t,
            signedResult neg (strconv.ParseUint t) = (v, None)
            <-> match (if neg then Z.opp <$> unsigned10 t else unsigned10 t) with
                | Some x => if (- 2 ^ 63 <=? x) && (x <? 2 ^ 63) then Some x else None
                | None => None
                end = Some v).
  { intros neg t. rewrite signedResult_success. split.
    - intros (u & Hu & -> & Hr). rewrite Hu.
      assert (Hin : forall x, - 2 ^ 63 <= x < 2 ^ 63 ->
                (- 2 ^ 63 <=? x) && (x <? 2 ^ 63) = true).
      { intros x Hx. apply andb_true_intro. split;
          [apply Z.leb_le|apply Z.ltb_lt]; lia. }
      destruct neg; cbn [fmap option_fmap option_map]; now rewrite Hin.
    - destruct (unsigned10 t) as [u|]; [|destruct neg; discriminate].
      intros Hv. exists u. split; [reflexivity|].
      assert (Hx : forall x,
                (if (- 2 ^ 63 <=? x) && (x <? 2 ^ 63) then Some x else None) = Some v ->
                v = x /\ - 2 ^ 63 <= v < 2 ^ 63).
      { intros x Hx. destruct (_ && _) eqn:Hb; [|discriminate].
        injection Hx as <-. apply andb_prop in Hb as [Hlo Hhi].
        apply Z.leb_le in Hlo. apply Z.ltb_lt in Hhi. auto. }
      destruct neg; cbn [fmap option_fmap option_map] in Hv; now apply Hx in Hv. }
  destruct s as [|c rest]; [split; discriminate|].
  rewrite ParseInt_kind_signed. unfold int64Of, base10.
  destruct (Ascii.eqb c "+"); [apply (Hrange false)|].
  destruct (Ascii.eqb c "-"); [apply (Hrange true)|apply (Hrange false)].
Qed.

(** ** Byte strings and paths *)

Lemma append_cons (x : ascii) (a b : string) :
  String x a +:+ b = String x (a +:+ b).
Proof. reflexivity. Qed.

Lemma append_assoc (a b c : string) : (a +:+ b) +:+ c = a +:+ (b +:+ c).
Proof.
  induction a as [|x a IH]; [reflexivity|].
  now rewrite !append_cons, IH.
Qed.

Lemma append_snoc_inj (p q : string) (c : ascii) :
  p +:+ String c "" = q +:+ String c "" -> p = q.
Proof.
  revert q. induction p as [|x p IH]; intros [|y q];
    rewrite ?append_cons; intros Heq.
  - reflexivity.
  - injection Heq as _ Heq. destruct q; discriminate.
  - injection Heq as _ Heq. destruct p; discriminate.
  - injection Heq as -> Heq. f_equal. now apply IH.
Qed.

Lemma split_on_nonempty sep s : split_on sep s <> [].
Proof.
  destruct s as [|c s]; cbn; [discriminate|].
  destruct (Ascii.eqb c sep); [discriminate|].
  destruct (split_on sep s); discriminate.
Qed.

Lemma split_on_app sep s t :
  split_on sep (s +:+ String sep t) = (split_on sep s ++ split_on sep t)%list.
Proof.
  induction s as [|c s IH].
  - change ("" +:+ String sep t) with (String sep t). cbn [split_on app].
    now rewrite Ascii.eqb_refl.
  - rewrite append_cons. cbn [split_on]. rewrite IH.
    destruct (Ascii.eqb c sep); [reflexivity|].
    pose proof (split_on_nonempty sep s) as Hne.
    destruct (split_on sep s); [contradiction|reflexivity].
Qed.

Lemma join_with_snoc sep l c :
  join_with sep (l ++ [c])
  = match l with
    | [] => c
    | _ => join_with sep l +:+ sep +:+ c
    end.
Proof.
  induction l as [|x l IH]; [reflexivity|].
  change (join_with sep ((x :: l) ++ [c]))
    with (join_with sep (x :: (l ++ [c]))).
  destruct l as [|y l]; [reflexivity|].
  change (join_with sep (x :: ((y :: l) ++ [c])))
    with (x +:+ sep +:+ join_with sep ((y :: l) ++ [c])).
  rewrite IH.
  change (join_with sep (x :: y :: l)) with (x +:+ sep +:+ join_with sep (y :: l)).
  now rewrite !append_assoc.
Qed.

Lemma clean_step_plain rooted st c :
  plainElement c -> path.clean_step rooted st c = c :: st.
Proof.
  intros (Hne & Hdot & Hdots & _). unfold path.clean_step.
  destruct (decide (c = "")); [contradiction|].
  destruct (decide (c = ".")); [contradiction|].
  destruct (decide (c = "..")); [contradiction|reflexivity].
Qed.

Lemma Join_two (prefix c : string) :
  c <> "" ->
  path.Join [prefix; c]
  = path.Clean (if decide (prefix = "") then c else prefix +:+ "/" +:+ c).
Proof.
  intros Hc. unfold path.Join. cbn [fold_left].
  destruct (decide ("" = "")) as [_|Hn]; [|contradiction].
  destruct (decide (prefix = "")) as [->|Hp].
  - now rewrite decide_False by exact Hc.
  - rewrite decide_False; [reflexivity|].
    destruct prefix; [contradiction|discriminate].
Qed.

(** [path.Join] of a prefix and a plain element ends in the element, after a
    text that depends on the prefix alone. *)
Lemma Join_plain_last (prefix : string) :
  exists R, forall c, plainElement c -> path.Join [prefix; c] = R +:+ c.
Proof.
  destruct prefix as [|a p].
  - exists "". intros c Hplain.
    pose proof Hplain as (Hne & Hdot & Hdots & Hsplit).
    rewrite Join_two by exact Hne. rewrite decide_True by reflexivity.
    destruct c as [|x c]; [contradiction|]. unfold path.Clean.
    assert (Hx : Ascii.eqb x "/" = false).
    { destruct (Ascii.eqb x "/") eqn:E; [|reflexivity].
      cbn in Hsplit. rewrite E in Hsplit. discriminate. }
    rewrite Hx, Hsplit. cbn [fold_left].
    rewrite clean_step_plain by exact Hplain. cbn [rev app join_with].
    now rewrite decide_False by discriminate.
  - set (rooted := Ascii.eqb a "/").
    set (st := fold_left (path.clean_step rooted) (split_on "/" (String a p)) []).
    exists ((if rooted then "/" else "")
            +:+ match rev st with
                | [] => ""
                | _ => join_with "/" (rev st) +:+ "/"
                end).
    intros c Hplain. pose proof Hplain as (Hne & Hdot & Hdots & Hsplit).
    rewrite Join_two by exact Hne. rewrite decide_False by discriminate.
    change (String a p +:+ "/" +:+ c) with (String a (p +:+ String "/" c)).
    unfold path.Clean. fold rooted.
    change (String a (p +:+ String "/" c)) with (String a p +:+ String "/" c).
    rewrite split_on_app, Hsplit, fold_left_app. fold st. cbn [fold_left].
    rewrite clean_step_plain by exact Hplain.
    cbn [rev]. rewrite join_with_snoc.
    assert (Hbody : match rev st with
                    | [] => c
                    | _ :: _ => join_with "/" (rev st) +:+ "/" +:+ c
                    end
                    = match rev st with
                      | [] => ""
                      | _ => join_with "/" (rev st) +:+ "/"
                      end +:+ c).
    { destruct (rev st); [reflexivity|]. now rewrite append_assoc. }
    rewrite Hbody. destruct rooted.
    + now rewrite append_assoc.
    + rewrite decide_False; [reflexivity|].
      destruct (match rev st with [] => "" | _ => _ end); destruct c;
        try discriminate; contradiction.
Qed.

Lemma Join_channel_event (prefix : string) :
  path.Join [prefix; "channel"] <> ""
  /\ path.Join [prefix; "event"] <> ""
  /\ path.Join [prefix; "channel"] <> path.Join [prefix; "event"].
Proof.
  destruct (Join_plain_last prefix) as [R HR].
  rewrite !HR by (repeat split; discriminate).
  repeat split.
  - destruct R; discriminate.
  - destruct R; discriminate.
  - intros Heq. apply String.app_inj in Heq. discriminate.
Qed.

Section Properties.
Context `{Externals}.

(** ** Response writers *)

Lemma client_with_Header f w :
  http.client (http.with_Header f w) =
  http.mkConn (f (http.header (http.client w))) (http.sent (http.client w))
              (http.body (http.client w)) (http.broken (http.client w)).
Proof. induction w as [c|w IH code b]; simpl; auto. Qed.

Lemma client_WriteHeader w code :
  http.client (http.WriteHeader w code) = http.conn_WriteHeader (http.client w) code.
Proof. induction w as [c|w IH c b]; simpl; auto. Qed.

Lemma client_Write w data :
  http.client (http.Write w data).1 = (http.conn_Write (http.client w) data).1
  /\ (http.Write w data).2 = (http.conn_Write (http.client w) data).2.
Proof.
  induction w as [c|w [IH1 IH2] code b]; simpl.
  - destruct (http.conn_Write c data); auto.
  - destruct (http.Write w data); simpl in *; auto.
Qed.

(** The error envelope on a connection that has sent nothing: the status is
    the given code, the content type is JSON, and the body is the error
    body when the link works. *)
Lemma formatJSONError_response w code message :
  http.unsent w ->
  http.status (formatJSONError w code message) = code
  /\ http.sentHeader (formatJSONError w code message) !! "Content-Type"
     = Some ["application/json"]
  /\ (http.linkUp w ->
      http.sentBody (formatJSONError w code message) = errorBody code message).
Proof.
  intros [Hsent Hbody]. unfold formatJSONError, http.status, http.sentHeader,
    http.sentBody, http.linkUp.
  destruct (client_Write
              (http.WriteHeader
                 (http.with_Header
                    (fun h => http.Header_Set h "Content-Type" "application/json") w)
                 code) (errorBody code message)) as [-> _].
  rewrite client_WriteHeader, client_with_Header.
  unfold http.conn_Write, http.conn_WriteHeader; simpl. rewrite Hsent; simpl.
  destruct (http.broken (http.client w)) eqn:Hb; simpl;
    (split; [reflexivity|split; [apply lookup_insert_eq|]]).
  - intros [=].
  - intros _. now rewrite Hbody.
Qed.

(** A successful JSON response on a connection that has sent nothing and
    whose link works: status 200, the content type added, the data as
    body, and no log line. *)
Lemma writeJSON_response w data σ :
  http.unsent w -> http.linkUp w ->
  exists w',
    writeOrLog
      (http.with_Header
         (fun h => http.Header_Add h "Content-Type" "application/json") w)
      data σ = (w', σ)
    /\ http.status w' = http.StatusOK
    /\ http.sentBody w' = data
    /\ http.sentHeader w' !! "Content-Type"
       = Some (default [] (http.header (http.client w) !! "Content-Type")
                 ++ ["application/json"])%list.
Proof.
  intros [Hsent Hbody] Hup. unfold writeOrLog, http.linkUp in *.
  set (w1 := http.with_Header _ w).
  destruct (client_Write w1 data) as [Hc He].
  destruct (http.Write w1 data) as [w' err] eqn:Hw; simpl in *.
  unfold w1 in Hc, He. rewrite client_with_Header in Hc, He.
  unfold http.conn_Write, http.conn_WriteHeader in Hc, He; simpl in Hc, He.
  rewrite Hsent in Hc, He; simpl in Hc, He. rewrite Hup in Hc, He; simpl in *.
  subst err. exists w'. split; [reflexivity|].
  unfold http.status, http.sentBody, http.sentHeader. rewrite Hc; simpl.
  rewrite Hbody. repeat split. apply lookup_insert_eq.
Qed.

(** ** The [/channel] endpoint *)

Lemma length_lt_1 (module : string) :
  (String.length module <? 1)%nat = bool_decide (module = "").
Proof. destruct module; reflexivity. Qed.

(** The handler once its three checks have passed: the count lookup is
    made, its error is logged, and the target follows the count. *)
Lemma handleChannel_lookup (s : Server) w r σ id count err :
  let module := url.Get (url.Query Quote (URL r)) "module" in
  let orgID := identity.OrgID (identity.Identity_ id) in
  let target := if 0 <? count then "/testing" else "/release" in
  module <> "" ->
  GetIdentity r = (id, None) ->
  orgID <> "" ->
  Count (db s) module orgID = (count, err) ->
  handleChannel s w r σ
  = Done (writeOrLog
            (http.with_Header
               (fun h => http.Header_Add h "Content-Type" "application/json") w)
            (channelBody target)
            (incRequests target
               (match err with
                | Some e => log_Error e (query (QueryCount module orgID) σ)
                | None => query (QueryCount module orgID) σ
                end))).
Proof.
  intros module orgID target Hm Hid Ho Hc. unfold handleChannel.
  fold module. rewrite length_lt_1, bool_decide_eq_false_2 by exact Hm.
  rewrite Hid. fold orgID. rewrite decide_False by exact Ho. rewrite Hc.
  unfold target. destruct (0 <? count); reflexivity.
Qed.

(** C3 (amended): when the count lookup returns an error, the error is
    logged and not surfaced, whatever count comes beside it: the response
    is still 200 with content type JSON, the target is counted, and the
    decision uses the count that was returned.  The body is the release
    target whenever that count is not positive, and the testing target
    when it is positive. *)
Theorem handleChannel_count_error (s : Server) w r σ id count e :
  let module := url.Get (url.Query Quote (URL r)) "module" in
  let orgID := identity.OrgID (identity.Identity_ id) in
  let target := if 0 <? count then "/testing" else "/release" in
  module <> "" ->
  GetIdentity r = (id, None) ->
  orgID <> "" ->
  Count (db s) module orgID = (count, Some e) ->
  http.unsent w -> http.linkUp w ->
  exists w',
    handleChannel s w r σ
    = Done (w', incRequests target
                  (log_Error e (query (QueryCount module orgID) σ)))
    /\ http.status w' = http.StatusOK
    /\ http.sentBody w' = channelBody target
    /\ http.sentHeader w' !! "Content-Type"
       = Some (default [] (http.header (http.client w) !! "Content-Type")
                 ++ ["application/json"])%list
    /\ (count <= 0 -> http.sentBody w' = channelBody "/release")
    /\ (0 < count -> http.sentBody w' = channelBody "/testing").
Proof.
  intros module orgID target Hm Hid Ho Hc Hw Hup.
  rewrite (handleChannel_lookup s w r σ id count (Some e) Hm Hid Ho Hc).
  fold target.
  match goal with
  | |- context [writeOrLog _ ?d ?σ'] =>
      destruct (writeJSON_response w d σ' Hw Hup) as (w' & Hwr & Hs & Hb & Hh)
  end.
  exists w'. rewrite Hwr. repeat split; try assumption.
  - intros Hle. rewrite Hb. unfold target.
    assert (Hc0 : (0 <? count) = false) by (apply Z.ltb_ge; lia).
    now rewrite Hc0.
  - intros Hlt. rewrite Hb. unfold target.
    assert (Hc1 : (0 <? count) = true) by (apply Z.ltb_lt; lia).
    now rewrite Hc1.
Qed.

(** C5: when the count lookup succeeds, a positive count gives the testing
    target and any other count the release target; the response is 200
    with content type JSON and the JSON object of the target under the key
    url as body, and the target is counted. *)
Theorem handleChannel_decision (s : Server) w r σ id count :
  let module := url.Get (url.Query Quote (URL r)) "module" in
  let orgID := identity.OrgID (identity.Identity_ id) in
  let target := if 0 <? count then "/testing" else "/release" in
  module <> "" ->
  GetIdentity r = (id, None) ->
  orgID <> "" ->
  Count (db s) module orgID = (count, None) ->
  http.unsent w -> http.linkUp w ->
  exists w',
    handleChannel s w r σ
    = Done (w', incRequests target (query (QueryCount module orgID) σ))
    /\ http.status w' = http.StatusOK
    /\ http.sentBody w' = channelBody target
    /\ http.sentHeader w' !! "Content-Type"
       = Some (default [] (http.header (http.client w) !! "Content-Type")
                 ++ ["application/json"])%list.
Proof.
  intros module orgID target Hm Hid Ho Hc Hw Hup.
  rewrite (handleChannel_lookup s w r σ id count None Hm Hid Ho Hc).
  match goal with
  | |- context [writeOrLog _ ?d ?σ'] =>
      destruct (writeJSON_response w d σ' Hw Hup) as (w' & Hwr & Hs & Hb & Hh)
  end.
  exists w'. rewrite Hwr. auto.
Qed.

(** C6: the checks of the channel handler come in this order.  An empty
    module parameter gives 400 with its message before the identity is
    looked at, so for every identity; then a failure of the identity
    adapter gives 500 with the adapter's error text, whatever the identity
    beside it; then an empty organization id gives 400 with its message.
    None of the three reaches the database. *)
Theorem handleChannel_check_order (s : Server) w r σ :
  let module := url.Get (url.Query Quote (URL r)) "module" in
  (module = "" ->
   handleChannel s w r σ
   = Done (formatJSONError w http.StatusBadRequest
             "missing required parameter: 'module'", σ))
  /\ (module <> "" ->
      forall id e, GetIdentity r = (id, Some e) ->
      handleChannel s w r σ
      = Done (formatJSONError w http.StatusInternalServerError e, σ))
  /\ (module <> "" ->
      forall id, GetIdentity r = (id, None) ->
      identity.OrgID (identity.Identity_ id) = "" ->
      handleChannel s w r σ
      = Done (formatJSONError w http.StatusBadRequest
                "missing org_id identity field", σ)).
Proof.
  intros module. unfold handleChannel. fold module. rewrite length_lt_1.
  repeat split.
  - intros Hm. now rewrite bool_decide_eq_true_2 by exact Hm.
  - intros Hm id e Hid. rewrite bool_decide_eq_false_2 by exact Hm.
    now rewrite Hid.
  - intros Hm id Hid Ho. rewrite bool_decide_eq_false_2 by exact Hm.
    rewrite Hid. now rewrite decide_True by exact Ho.
Qed.

(** ** The [/event] endpoint *)

(** C1 (amended): for every POST request to the event endpoint the handler
    writes status 201 Created and nothing else, whatever the database is:
    the response has an empty body, no database query is made and no log
    line or counter is produced. *)
Theorem handleEvent_post_created (s : Server) w r σ :
  Method r = http.MethodPost ->
  handleEvent s w r σ = Done (http.WriteHeader w http.StatusCreated, σ)
  /\ (http.unsent w ->
      responseOf (handleEvent s w r σ) = Some (http.StatusCreated, "")).
Proof.
  intros Hm. unfold handleEvent. rewrite decide_True by exact Hm.
  split; [reflexivity|]. intros [Hsent Hbody]. simpl.
  unfold http.status, http.sentBody. rewrite client_WriteHeader.
  unfold http.conn_WriteHeader. rewrite Hsent. simpl. now rewrite Hbody.
Qed.


(** C8: a request to the event endpoint whose method is neither POST nor GET
    gets the error envelope with status 405 and the message
    error: 'METHOD' not allowed, METHOD being the method of the request. *)
Theorem handleEvent_method_not_allowed (s : Server) w r σ :
  Method r <> http.MethodPost ->
  Method r <> http.MethodGet ->
  let message := "error: '" +:+ Method r +:+ "' not allowed" in
  handleEvent s w r σ
  = Done (formatJSONError w http.StatusMethodNotAllowed message, σ)
  /\ (http.unsent w -> http.linkUp w ->
      responseOf (handleEvent s w r σ)
      = Some (http.StatusMethodNotAllowed,
              errorBody http.StatusMethodNotAllowed message)).
Proof.
  intros Hp Hg message.
  assert (Heq : handleEvent s w r σ
                = Done (formatJSONError w http.StatusMethodNotAllowed message, σ)).
  { unfold handleEvent. rewrite decide_False by exact Hp.
    now rewrite decide_False by exact Hg. }
  split; [exact Heq|]. intros Hw Hup. rewrite Heq. simpl.
  destruct (formatJSONError_response w http.StatusMethodNotAllowed message Hw)
    as (-> & _ & Hb).
  now rewrite (Hb Hup).
Qed.

(** C10: in a GET request to the event endpoint whose identity was resolved
    without error, the caller type is dereferenced without a nil check:
    when it is absent the handler panics, for every query string and
    database, and so does not answer 401; when it is present the handler
    returns. *)
Theorem handleEvent_get_nil_type (s : Server) w r σ id :
  Method r = http.MethodGet ->
  GetIdentity r = (id, None) ->
  (identity.Type_ (identity.Identity_ id) = None ->
   handleEvent s w r σ = Panicked nilDereference)
  /\ (forall type, identity.Type_ (identity.Identity_ id) = Some type ->
      exists w' σ', handleEvent s w r σ = Done (w', σ')).
Proof.
  intros Hm Hid.
  assert (Hp : Method r <> http.MethodPost) by (rewrite Hm; discriminate).
  unfold handleEvent. rewrite decide_False by exact Hp.
  rewrite decide_True by exact Hm. rewrite Hid. split.
  - intros ->. reflexivity.
  - intros type ->.
    destruct (decide (type <> "Associate")); [eauto|].
    destruct (url.ParseQuery Quote (url.RawQuery (URL r))) as [params [e|]];
      [eauto|].
    destruct (paramInt params "limit" "-1") as [limit [e|]]; [eauto|].
    destruct (paramInt params "offset" "0") as [offset [e|]]; [eauto|].
    destruct (GetEvents (db s) limit offset) as [events [e|]]; [eauto|].
    destruct (marshalEvents events) as [data [e|]]; [eauto|].
    destruct (writeOrLog _ data _) as [w' σ']. eauto.
Qed.

Lemma ParseInt_int64Of (p : string) :
  match int64Of p with
  | Some v => strconv.ParseInt Quote p = (v, None)
  | None =>
      exists n kind,
        strconv.ParseInt Quote p
        = (n, Some (strconv.NumError_text Quote "ParseInt" p kind))
  end.
Proof.
  unfold strconv.ParseInt.
  destruct (strconv.ParseInt_kind p) as [n [kind|]] eqn:Hrun.
  - destruct (int64Of p) as [v|] eqn:Hv; [|eauto].
    apply ParseInt_kind_success in Hv. congruence.
  - apply ParseInt_kind_success in Hrun. now rewrite Hrun.
Qed.



(** ** The logging middleware *)

Lemma logLevel_warn code : 400 <= code -> logLevel code = logrus.WarnLevel.
Proof.
  intros Hc. unfold logLevel.
  now rewrite (proj2 (Z.leb_le 400 code) Hc).
Qed.

Lemma logLevel_info code : code < 400 -> logLevel code = logrus.InfoLevel.
Proof.
  intros Hc. unfold logLevel.
  rewrite (proj2 (Z.leb_gt 400 code) Hc).
  assert (H500 : (500 <=? code) = false) by (apply Z.leb_gt; lia).
  now rewrite H500.
Qed.

(** The case of the switch that gives the error level is never taken. *)
Lemma logLevel_never_error code : logLevel code <> logrus.ErrorLevel.
Proof.
  destruct (Z.le_gt_cases 400 code) as [Hc|Hc].
  - rewrite logLevel_warn by exact Hc. discriminate.
  - rewrite logLevel_info by lia. discriminate.
Qed.

(** The log line of a request: its level and its status come from the
    status that the recorder captured from the wrapped handler. *)
Lemma log_line (s : Server) next w r σ rr σ' :
  next (http.newResponseRecorder w) r σ = Done (rr, σ') ->
  log s next w r σ
  = Done (http.unwrap rr,
          emit (logrus.mkEntry (logLevel (http.Code rr)) ""
                  (logFields r (http.Code rr) (truncateBody (http.Body rr)))) σ').
Proof. intros Hn. unfold log. now rewrite Hn. Qed.

(** ** The route table *)

Lemma handleAPI_Done (s : Server) prefix :
  exists api, handleAPI s prefix = Done api.
Proof.
  destruct (Join_channel_event prefix) as (Hc & He & Hne).
  unfold handleAPI, HandleFunc.
  rewrite decide_False by exact Hc. rewrite lookup_empty. cbn [bind].
  rewrite decide_False by exact He.
  rewrite lookup_insert_ne by exact Hne. rewrite lookup_empty. cbn [bind].
  eexists. reflexivity.
Qed.

Lemma slash_ne_ping (prefix : string) : prefix +:+ "/" <> "/ping".
Proof.
  intros Heq. change "/ping" with ("/pin" +:+ "g") in Heq.
  destruct prefix as [|a [|b [|c [|d [|e p]]]]]; try discriminate.
  rewrite !append_cons in Heq. injection Heq as _ _ _ _ _ Heq.
  destruct p; discriminate.
Qed.

Lemma slash_nonempty (prefix : string) : prefix +:+ "/" <> "".
Proof. destruct prefix; discriminate. Qed.

(** The loop of [routes]: on prefixes without repetition, none of which is
    registered yet, every prefix gets the pipeline around its API handler,
    and the other patterns keep their handler. *)
Lemma routes_prefixes_spec (s : Server) (prefixes : list string) :
  forall m : ServeMux,
  NoDup prefixes ->
  (forall prefix, prefix ∈ prefixes -> m !! (prefix +:+ "/") = None) ->
  exists m',
    routes_prefixes s m prefixes = Done m'
    /\ (forall prefix, prefix ∈ prefixes ->
        exists api, handleAPI s prefix = Done api
                    /\ m' !! (prefix +:+ "/") = Some (pipeline s api))
    /\ (forall pattern,
        (forall prefix, prefix ∈ prefixes -> pattern <> prefix +:+ "/") ->
        m' !! pattern = m !! pattern).
Proof.
  induction prefixes as [|p ps IH]; intros m Hnd Hfree.
  - exists m. split; [reflexivity|]. split; [|reflexivity].
    intros prefix Hin. inversion Hin.
  - apply NoDup_cons in Hnd as [Hp Hnd].
    destruct (handleAPI_Done s p) as [api Hapi].
    cbn [routes_prefixes]. rewrite Hapi. cbn [bind]. unfold HandleFunc.
    rewrite decide_False by apply slash_nonempty.
    rewrite Hfree by apply list_elem_of_here. cbn [bind].
    fold (pipeline s api).
    destruct (IH (<[p +:+ "/" := pipeline s api]> m) Hnd) as (m' & Hm' & Hin' & Hout').
    { intros q Hq. rewrite lookup_insert_ne.
      - apply Hfree. now apply list_elem_of_further.
      - intros Heq. apply append_snoc_inj in Heq. subst q. contradiction. }
    exists m'. split; [exact Hm'|]. split.
    + intros q Hq. apply elem_of_cons in Hq as [->|Hq].
      * exists api. split; [exact Hapi|]. rewrite Hout'.
        -- apply lookup_insert_eq.
        -- intros q Hq Heq. apply append_snoc_inj in Heq. subst q. contradiction.
      * now apply Hin'.
    + intros pattern Hpat. rewrite Hout'.
      * apply lookup_insert_ne. intros Heq. symmetry in Heq.
        apply (Hpat p); [apply list_elem_of_here|exact Heq].
      * intros q Hq. apply Hpat. now apply list_elem_of_further.
Qed.

(** C9: on a server whose route table is empty and for prefixes without
    repetition, [routes] returns, and in its route table the pattern of a
    prefix followed by a slash is bound to the metrics middleware around
    the request-ID middleware around the logging middleware around the
    authentication middleware around the API handler of the prefix; the
    pattern /ping is bound to the ping handler itself, outside the
    pipeline, whatever the prefixes are; and nothing else is bound. *)
Theorem routes_pipeline (s : Server) (prefixes : list string) :
  mux s = ∅ ->
  NoDup prefixes ->
  exists s',
    routes s prefixes = Done s'
    /\ mux s' !! "/ping" = Some (handlePing s)
    /\ (forall prefix, prefix ∈ prefixes ->
        exists api,
          handleAPI s prefix = Done api
          /\ mux s' !! (prefix +:+ "/")
             = Some (metrics s (requestID s (log s (auth s api))))
          /\ metrics s (requestID s (log s (auth s api)))
             = middleware_Handler ""
                 (request_RequestID (log s (identity_Identify api))))
    /\ (forall pattern, is_Some (mux s' !! pattern) ->
        pattern = "/ping" \/ exists prefix, prefix ∈ prefixes /\ pattern = prefix +:+ "/").
Proof.
  intros Hmux Hnd. unfold routes, HandleFunc. rewrite Hmux.
  rewrite decide_False by discriminate. rewrite lookup_empty. cbn [bind].
  destruct (routes_prefixes_spec s prefixes (<["/ping" := handlePing s]> ∅) Hnd)
    as (m' & Hm' & Hin & Hout).
  { intros prefix _. rewrite lookup_insert_ne; [apply lookup_empty|].
    intros Heq. symmetry in Heq. now apply slash_ne_ping in Heq. }
  rewrite Hm'. cbn [bind]. eexists. split; [reflexivity|]. cbn [mux].
  split; [|split].
  - rewrite Hout; [apply lookup_insert_eq|].
    intros prefix _ Heq. symmetry in Heq. now apply slash_ne_ping in Heq.
  - intros prefix Hp. destruct (Hin prefix Hp) as (api & Hapi & Hl).
    exists api. repeat split; assumption.
  - intros pattern Hsome.
    destruct (decide (pattern = "/ping")) as [|Hping]; [now left|]. right.
    destruct (decide (Exists (fun prefix => pattern = prefix +:+ "/") prefixes))
      as [Hex|Hnex].
    + apply Exists_exists in Hex as (prefix & Hp & ->). eauto.
    + exfalso. rewrite Hout in Hsome.
      * rewrite lookup_insert_ne in Hsome by congruence.
        rewrite lookup_empty in Hsome. now destruct Hsome.
      * intros prefix Hp Heq. apply Hnex, Exists_exists. eauto.
Qed.

End Properties.

(** * The properties at concrete requests *)

Ltac ground :=
  first [ reflexivity
        | split; reflexivity
        | vm_compute; first [ reflexivity | discriminate | lia
                            | intros ?; discriminate ] ].

(** C1 (the claim as stated fails): the store reports an error on every
    operation, and the POST is still answered 201, not 500. *)
Lemma handleEvent_post_store_error :
  InsertEvent (failingDB 0) (Body postEvent) = Some "sql: database is closed"
  /\ responseOf (handleEvent (H:=sample) (sampleServer (failingDB 0))
                   http.fresh postEvent emptyWorld)
     = Some (201, "")
  /\ responseOf (handleEvent (H:=sample) (sampleServer (failingDB 0))
                   http.fresh postEvent emptyWorld)
     <> Some (500, "").
Proof. repeat split; ground. Qed.

Lemma handleEvent_post_created_witness :
  handleEvent (H:=sample) (sampleServer (failingDB 0)) http.fresh postEvent
    emptyWorld
  = Done (http.WriteHeader http.fresh http.StatusCreated, emptyWorld)
  /\ (http.unsent http.fresh ->
      responseOf (handleEvent (H:=sample) (sampleServer (failingDB 0))
                    http.fresh postEvent emptyWorld)
      = Some (http.StatusCreated, "")).
Proof.
  apply (handleEvent_post_created (H:=sample) (sampleServer (failingDB 0))
           http.fresh postEvent emptyWorld).
  reflexivity.
Defined.

(** C2 (the code differs): a response of status 500 is logged at the
    warning level.  Here the identity adapter fails in the channel handler,
    the handler answers 500, and the line of the logging middleware has the
    warning level. *)
Theorem log_status_500_is_warning :
  logLevel 500 = logrus.WarnLevel
  /\ responseOf (handleChannel (H:=sample) (sampleServer (countingDB 0))
                   http.fresh
                   (sampleRequest "GET" "/api/channel" "module=insights-core"
                      noIdentity)
                   emptyWorld)
     = Some (500, sampleErrorBody 500 "missing identity header")
  /\ levelsOf (log (H:=sample) (sampleServer (countingDB 0))
                 (handleChannel (sampleServer (countingDB 0)))
                 http.fresh
                 (sampleRequest "GET" "/api/channel" "module=insights-core"
                    noIdentity)
                 emptyWorld)
     = [logrus.WarnLevel].
Proof. repeat split; ground. Qed.

(** C3 (the claim as stated fails): the count lookup returns the count 1
    beside its error, and the response names the testing target. *)
Lemma handleChannel_count_error_positive :
  Count (failingDB 1) "insights-core" "acct-1"
  = (1, Some "sql: database is closed")
  /\ responseOf (handleChannel (H:=sample) (sampleServer (failingDB 1))
                   http.fresh channelRequest emptyWorld)
     = Some (200, channelBody "/testing")
  /\ channelBody "/testing" <> channelBody "/release".
Proof. repeat split; ground. Qed.

Lemma handleChannel_count_error_witness :
  exists w',
    handleChannel (H:=sample) (sampleServer (failingDB 0)) http.fresh
      channelRequest emptyWorld
    = Done (w', incRequests "/release"
                  (log_Error "sql: database is closed"
                     (query (QueryCount "insights-core" "acct-1") emptyWorld)))
    /\ http.status w' = http.StatusOK
    /\ http.sentBody w' = channelBody "/release"
    /\ http.sentHeader w' !! "Content-Type"
       = Some (default [] (http.header (http.client http.fresh) !! "Content-Type")
                 ++ ["application/json"])%list
    /\ (0 <= 0 -> http.sentBody w' = channelBody "/release")
    /\ (0 < 0 -> http.sentBody w' = channelBody "/testing").
Proof.
  apply (handleChannel_count_error (H:=sample) (sampleServer (failingDB 0))
           http.fresh channelRequest emptyWorld
           (identity.mkXRHID (identity.mkIdentity "acct-1" (Some "User")))
           0 "sql: database is closed"); ground.
Defined.

Lemma handleChannel_decision_witness :
  exists w',
    handleChannel (H:=sample) (sampleServer (countingDB 2)) http.fresh
      channelRequest emptyWorld
    = Done (w', incRequests "/testing"
                  (query (QueryCount "insights-core" "acct-1") emptyWorld))
    /\ http.status w' = http.StatusOK
    /\ http.sentBody w' = channelBody "/testing"
    /\ http.sentHeader w' !! "Content-Type"
       = Some (default [] (http.header (http.client http.fresh) !! "Content-Type")
                 ++ ["application/json"])%list.
Proof.
  apply (handleChannel_decision (H:=sample) (sampleServer (countingDB 2))
           http.fresh channelRequest emptyWorld
           (identity.mkXRHID (identity.mkIdentity "acct-1" (Some "User")))
           2); ground.
Defined.



Lemma handleEvent_method_not_allowed_witness :
  handleEvent (H:=sample) (sampleServer (countingDB 0)) http.fresh putEvent
    emptyWorld
  = Done (formatJSONError (H:=sample) http.fresh http.StatusMethodNotAllowed
            "error: 'PUT' not allowed", emptyWorld)
  /\ (http.unsent http.fresh -> http.linkUp http.fresh ->
      responseOf (handleEvent (H:=sample) (sampleServer (countingDB 0))
                    http.fresh putEvent emptyWorld)
      = Some (http.StatusMethodNotAllowed,
              sampleErrorBody 405 "error: 'PUT' not allowed")).
Proof.
  apply (handleEvent_method_not_allowed (H:=sample)
           (sampleServer (countingDB 0)) http.fresh putEvent emptyWorld); ground.
Defined.

Lemma handleEvent_get_nil_type_witness :
  (identity.Type_ (identity.mkIdentity "acct-1" None) = None ->
   handleEvent (H:=sample) (sampleServer (countingDB 0)) http.fresh
     (listEvents "" None) emptyWorld
   = Panicked nilDereference)
  /\ (forall type, identity.Type_ (identity.mkIdentity "acct-1" None) = Some type ->
      exists w' σ',
        handleEvent (H:=sample) (sampleServer (countingDB 0)) http.fresh
          (listEvents "" None) emptyWorld
        = Done (w', σ')).
Proof.
  apply (handleEvent_get_nil_type (H:=sample) (sampleServer (countingDB 0))
           http.fresh (listEvents "" None) emptyWorld
           (identity.mkXRHID (identity.mkIdentity "acct-1" None))); ground.
Defined.


Lemma routes_pipeline_witness :
  exists s',
    routes (H:=sample) (sampleServer (countingDB 0))
      ["/api"; "/r/insights/platform"]
    = Done s'
    /\ mux s' !! "/ping" = Some (handlePing (sampleServer (countingDB 0)))
    /\ (forall prefix, prefix ∈ ["/api"; "/r/insights/platform"] ->
        exists api,
          handleAPI (sampleServer (countingDB 0)) prefix = Done api
          /\ mux s' !! (prefix +:+ "/")
             = Some (metrics (sampleServer (countingDB 0))
                       (requestID (sampleServer (countingDB 0))
                          (log (sampleServer (countingDB 0))
                             (auth (sampleServer (countingDB 0)) api))))
          /\ metrics (sampleServer (countingDB 0))
               (requestID (sampleServer (countingDB 0))
                  (log (sampleServer (countingDB 0))
                     (auth (sampleServer (countingDB 0)) api)))
             = middleware_Handler (Externals:=sample) ""
                 (request_RequestID (Externals:=sample)
                    (log (sampleServer (countingDB 0))
                       (identity_Identify (Externals:=sample) api))))
    /\ (forall pattern, is_Some (mux s' !! pattern) ->
        pattern = "/ping"
        \/ exists prefix,
             prefix ∈ ["/api"; "/r/insights/platform"] /\ pattern = prefix +:+ "/").
Proof.
  apply (routes_pipeline (H:=sample) (sampleServer (countingDB 0))
           ["/api"; "/r/insights/platform"]).
  - reflexivity.
  - apply (bool_decide_unpack _). vm_compute. exact I.
Defined.

Lemma handleChannel_check_order_witness :
  (url.Get (url.Query (Quote (Externals:=sample))
              (URL (sampleRequest "GET" "/api/channel" "" noIdentity))) "module"
   = "" ->
   handleChannel (H:=sample) (sampleServer (countingDB 0)) http.fresh
     (sampleRequest "GET" "/api/channel" "" noIdentity) emptyWorld
   = Done (formatJSONError (H:=sample) http.fresh http.StatusBadRequest
             "missing required parameter: 'module'", emptyWorld))
  /\ responseOf (handleChannel (H:=sample) (sampleServer (countingDB 0))
                   http.fresh
                   (sampleRequest "GET" "/api/channel" "" noIdentity) emptyWorld)
     = Some (400, sampleErrorBody 400 "missing required parameter: 'module'").
Proof.
  split.
  - exact (proj1 (handleChannel_check_order (H:=sample)
                    (sampleServer (countingDB 0)) http.fresh
                    (sampleRequest "GET" "/api/channel" "" noIdentity)
                    emptyWorld)).
  - vm_compute. reflexivity.
Defined.

(** ** Further examples *)

(** A prefix given twice makes [routes] panic at the second registration. *)
Example routes_duplicate_prefix :
  routes (H:=sample) (sampleServer (countingDB 0)) ["/api"; "/api"]
  = Panicked "http: multiple registrations for /api/".
Proof. vm_compute. reflexivity. Qed.

(** Without parameters the events are queried with limit -1 and offset 0,
    and so they are when a parameter is given with an empty value. *)
Example handleEvent_get_defaults :
  (let res := handleEvent (H:=sample) (sampleServer (countingDB 0)) http.fresh
                (listEvents "" (Some "Associate")) emptyWorld in
   match res with
   | Done (w, σ) => Some (http.status w, queries σ)
   | Panicked _ => None
   end) = Some (200, [QueryGetEvents (-1) 0])
  /\ (let res := handleEvent (H:=sample) (sampleServer (countingDB 0)) http.fresh
                   (listEvents "limit=&offset=" (Some "Associate")) emptyWorld in
      match res with
      | Done (w, σ) => Some (http.status w, queries σ)
      | Panicked _ => None
      end) = Some (200, [QueryGetEvents (-1) 0]).
Proof. split; vm_compute; reflexivity. Qed.

(** A limit that is not a base-10 integer, or not in the 64-bit range, is
    answered 400 with the text of the parser's error. *)
Example handleEvent_get_bad_limit :
  responseOf (handleEvent (H:=sample) (sampleServer (countingDB 0)) http.fresh
                (listEvents "limit=abc" (Some "Associate")) emptyWorld)
  = Some (400, sampleErrorBody 400
                 ("strconv.ParseInt: parsing " +:+ dquote +:+ "abc" +:+ dquote
                  +:+ ": invalid syntax"))
  /\ responseOf (handleEvent (H:=sample) (sampleServer (countingDB 0)) http.fresh
                   (listEvents "limit=9223372036854775808" (Some "Associate"))
                   emptyWorld)
     = Some (400, sampleErrorBody 400
                    ("strconv.ParseInt: parsing " +:+ dquote
                     +:+ "9223372036854775808" +:+ dquote
                     +:+ ": value out of range")).
Proof. split; vm_compute; reflexivity. Qed.

(** The three checks of the channel handler, in their order: no module
    parameter and no identity gives the 400 of the parameter; a module
    parameter and no identity gives 500; an identity without organization
    gives the 400 of the organization. *)
Example handleChannel_checks :
  responseOf (handleChannel (H:=sample) (sampleServer (countingDB 0)) http.fresh
                (sampleRequest "GET" "/api/channel" "" noIdentity) emptyWorld)
  = Some (400, sampleErrorBody 400 "missing required parameter: 'module'")
  /\ responseOf (handleChannel (H:=sample) (sampleServer (countingDB 0))
                   http.fresh
                   (sampleRequest "GET" "/api/channel" "module=m" noIdentity)
                   emptyWorld)
     = Some (500, sampleErrorBody 500 "missing identity header")
  /\ responseOf (handleChannel (H:=sample) (sampleServer (countingDB 0))
                   http.fresh
                   (sampleRequest "GET" "/api/channel" "module=m"
                      (identityOf "" (Some "User")))
                   emptyWorld)
     = Some (400, sampleErrorBody 400 "missing org_id identity field").
Proof. repeat split; vm_compute; reflexivity. Qed.

(** Through the whole server: a request to the channel endpoint of a
    registered prefix is answered and logged at the info level; a request
    that the authentication middleware refuses is answered 400 by it and
    logged, with that status, at the warning level; /ping is answered
    without a log line. *)
Example server_end_to_end :
  match NewServer (H:=sample) ":8080" ["/api"; "/r/insights/platform"]
          (countingDB 3) with
  | Done s =>
      let run r := ServeHTTP s http.fresh r emptyWorld in
      (responseOf (run channelRequest), levelsOf (run channelRequest))
      = (Some (200, channelBody "/testing"), [logrus.InfoLevel])
      /\ (responseOf (run (sampleRequest "GET" "/r/insights/platform/event" ""
                             noIdentity)),
          levelsOf (run (sampleRequest "GET" "/r/insights/platform/event" ""
                           noIdentity)))
         = (Some (400, "Bad Request: missing identity header"),
            [logrus.WarnLevel])
      /\ (responseOf (run (sampleRequest "GET" "/ping" "" noIdentity)),
          levelsOf (run (sampleRequest "GET" "/ping" "" noIdentity)))
         = (Some (200, "OK"), [])
  | Panicked _ => False
  end.
Proof. vm_compute. repeat split; reflexivity. Qed.

(** * Further properties of routes.go *)

Section Handlers.
Context `{Externals}.

(** ** Writes and their failures *)

(** A write on a connection that has sent nothing: on a working link the
    client gets status 200, the header map as it stands and the data; on a
    broken link nothing of the body is sent and the failure is logged at
    the error level. *)
Lemma writeOrLog_unsent w data σ :
  http.unsent w ->
  exists w',
    match http.broken (http.client w) with
    | None =>
        writeOrLog w data σ = (w', σ)
        /\ http.status w' = http.StatusOK
        /\ http.sentHeader w' = http.header (http.client w)
        /\ http.sentBody w' = data
    | Some e =>
        writeOrLog w data σ = (w', log_Error (cannotWrite e) σ)
        /\ http.sentBody w' = ""
    end.
Proof.
  intros [Hsent Hbody]. unfold writeOrLog.
  destruct (client_Write w data) as [Hc He].
  destruct (http.Write w data) as [w' err]; simpl in Hc, He.
  unfold http.conn_Write, http.conn_WriteHeader in Hc, He.
  rewrite Hsent in Hc, He. simpl in Hc, He.
  exists w'. unfold http.status, http.sentHeader, http.sentBody.
  destruct (http.broken (http.client w)) as [e|]; simpl in Hc, He; subst err;
    rewrite Hc; simpl.
  - split; [reflexivity|exact Hbody].
  - rewrite Hbody. repeat split.
Qed.

(** X1: the ping handler answers every request alike, whatever its method,
    path, query and identity, and never reads the database: on a
    connection that has sent nothing, the client gets status 200 and the
    body OK when the link works; when the write fails the handler still
    returns, and the failure is its one log line, at the error level. *)
Theorem handlePing_response (s : Server) w r σ :
  http.unsent w ->
  exists w',
    match http.broken (http.client w) with
    | None =>
        handlePing s w r σ = Done (w', σ)
        /\ http.status w' = http.StatusOK
        /\ http.sentBody w' = "OK"
    | Some e =>
        handlePing s w r σ = Done (w', log_Error (cannotWrite e) σ)
        /\ http.sentBody w' = ""
    end.
Proof.
  intros Hw. destruct (writeOrLog_unsent w "OK" σ Hw) as [w' Hres].
  exists w'. unfold handlePing.
  destruct (http.broken (http.client w)) as [e|].
  - destruct Hres as [-> Hb]. auto.
  - destruct Hres as (-> & Hs & _ & Hb). auto.
Qed.

(** A write on a broken link fails, and the failure is logged at the error
    level. *)
Lemma writeOrLog_broken w data σ e :
  http.broken (http.client w) = Some e ->
  exists w', writeOrLog w data σ = (w', log_Error (cannotWrite e) σ).
Proof.
  intros Hbroken. unfold writeOrLog.
  destruct (client_Write w data) as [_ He].
  destruct (http.Write w data) as [w' err]; simpl in He.
  unfold http.conn_Write in He.
  assert (Hb : http.broken (http.conn_WriteHeader (http.client w) http.StatusOK)
               = Some e).
  { unfold http.conn_WriteHeader. now destruct (http.sent (http.client w)). }
  rewrite Hb in He. simpl in He. subst err. eauto.
Qed.

(** X2: when the write of the channel response fails, the failure is not
    surfaced, whether the count lookup succeeded or failed before it: the
    handler returns, the target has been counted, and the error of the
    write is logged at the error level as the last effect, after the
    count lookup and the log line of its error, if it had one. *)
Theorem handleChannel_write_failure (s : Server) w r σ id count err e :
  let module := url.Get (url.Query Quote (URL r)) "module" in
  let orgID := identity.OrgID (identity.Identity_ id) in
  let target := if 0 <? count then "/testing" else "/release" in
  module <> "" ->
  GetIdentity r = (id, None) ->
  orgID <> "" ->
  Count (db s) module orgID = (count, err) ->
  http.broken (http.client w) = Some e ->
  exists w',
    handleChannel s w r σ
    = Done (w', log_Error (cannotWrite e)
                  (incRequests target
                     (match err with
                      | Some e' => log_Error e' (query (QueryCount module orgID) σ)
                      | None => query (QueryCount module orgID) σ
                      end))).
Proof.
  intros module orgID target Hm Hid Ho Hc Hbroken.
  rewrite (handleChannel_lookup s w r σ id count err Hm Hid Ho Hc).
  match goal with
  | |- context [writeOrLog ?w1 ?d ?σ'] =>
      destruct (writeOrLog_broken w1 d σ' e) as [w' Hres];
      [rewrite client_with_Header; exact Hbroken|]
  end.
  exists w'. now rewrite Hres.
Qed.

(** ** The listing of events *)

(** X3: in a GET request to the event endpoint, a failure of the identity
    adapter is answered with the error envelope of status 500 and the
    adapter's error text, before the caller type is read: it holds whatever
    identity comes beside the error, also one without caller type, and for
    every query string. *)
Theorem handleEvent_get_identity_error (s : Server) w r σ id e :
  Method r = http.MethodGet ->
  GetIdentity r = (id, Some e) ->
  handleEvent s w r σ
  = Done (formatJSONError w http.StatusInternalServerError e, σ)
  /\ (http.unsent w -> http.linkUp w ->
      responseOf (handleEvent s w r σ)
      = Some (http.StatusInternalServerError,
              errorBody http.StatusInternalServerError e)).
Proof.
  intros Hm Hid.
  assert (Hp : Method r <> http.MethodPost) by (rewrite Hm; discriminate).
  assert (Heq : handleEvent s w r σ
                = Done (formatJSONError w http.StatusInternalServerError e, σ)).
  { unfold handleEvent. rewrite decide_False by exact Hp.
    rewrite decide_True by exact Hm. now rewrite Hid. }
  split; [exact Heq|]. intros Hw Hup. rewrite Heq. simpl.
  destruct (formatJSONError_response w http.StatusInternalServerError e Hw)
    as (-> & _ & Hb).
  now rewrite (Hb Hup).
Qed.

(** The GET case of the event handler for an "Associate" identity. *)
Lemma handleEvent_get_associate (s : Server) w r σ id :
  Method r = http.MethodGet ->
  GetIdentity r = (id, None) ->
  identity.Type_ (identity.Identity_ id) = Some "Associate" ->
  handleEvent s w r σ
  = let '(params, err) := url.ParseQuery Quote (url.RawQuery (URL r)) in
    match err with
    | Some e => Done (formatJSONError w http.StatusBadRequest e, σ)
    | None =>
        let '(limit, err) := paramInt params "limit" "-1" in
        match err with
        | Some e => Done (formatJSONError w http.StatusBadRequest e, σ)
        | None =>
            let '(offset, err) := paramInt params "offset" "0" in
            match err with
            | Some e => Done (formatJSONError w http.StatusBadRequest e, σ)
            | None =>
                let '(events, err) := GetEvents (db s) limit offset in
                let σ := query (QueryGetEvents limit offset) σ in
                match err with
                | Some e =>
                    Done (formatJSONError w http.StatusInternalServerError e, σ)
                | None =>
                    let '(data, err) := marshalEvents events in
                    match err with
                    | Some e =>
                        Done (formatJSONError w
                                http.StatusInternalServerError e, σ)
                    | None =>
                        Done (writeOrLog
                                (http.with_Header
                                   (fun h => http.Header_Add h "Content-Type"
                                               "application/json") w)
                                data σ)
                    end
                end
            end
        end
    end.
Proof.
  intros Hm Hid Ht.
  assert (Hp : Method r <> http.MethodPost) by (rewrite Hm; discriminate).
  unfold handleEvent. rewrite decide_False by exact Hp.
  rewrite decide_True by exact Hm. rewrite Hid, Ht.
  now rewrite decide_False by (intros Hne; now apply Hne).
Qed.

(** X4: in a GET request to the event endpoint from an "Associate"
    identity, a query string that [url.ParseQuery] rejects is answered with
    the error envelope of status 400 and the parser's error text, also when
    its limit and offset pairs are well formed; the database is not
    queried. *)
Theorem handleEvent_get_query_error (s : Server) w r σ id params e :
  Method r = http.MethodGet ->
  GetIdentity r = (id, None) ->
  identity.Type_ (identity.Identity_ id) = Some "Associate" ->
  url.ParseQuery Quote (url.RawQuery (URL r)) = (params, Some e) ->
  handleEvent s w r σ = Done (formatJSONError w http.StatusBadRequest e, σ)
  /\ (http.unsent w -> http.linkUp w ->
      responseOf (handleEvent s w r σ)
      = Some (http.StatusBadRequest, errorBody http.StatusBadRequest e)).
Proof.
  intros Hm Hid Ht Hq.
  assert (Heq : handleEvent s w r σ
                = Done (formatJSONError w http.StatusBadRequest e, σ)).
  { rewrite (handleEvent_get_associate s w r σ id Hm Hid Ht). now rewrite Hq. }
  split; [exact Heq|]. intros Hw Hup. rewrite Heq. simpl.
  destruct (formatJSONError_response w http.StatusBadRequest e Hw)
    as (-> & _ & Hb).
  now rewrite (Hb Hup).
Qed.

(** X5: once the query string, the limit and the offset of a GET request
    from an "Associate" identity have parsed, the answer follows the event
    store, which is queried once: its error gives status 500 with the
    store's error text; an encoding error of the events gives 500 with the
    encoder's text; otherwise the client gets status 200, the content type
    JSON and the encoded events as body. *)
Theorem handleEvent_get_listing (s : Server) w r σ id params limit offset :
  Method r = http.MethodGet ->
  GetIdentity r = (id, None) ->
  identity.Type_ (identity.Identity_ id) = Some "Associate" ->
  url.ParseQuery Quote (url.RawQuery (URL r)) = (params, None) ->
  paramInt params "limit" "-1" = (limit, None) ->
  paramInt params "offset" "0" = (offset, None) ->
  http.unsent w -> http.linkUp w ->
  exists w',
    handleEvent s w r σ = Done (w', query (QueryGetEvents limit offset) σ)
    /\ match GetEvents (db s) limit offset with
       | (_, Some e) =>
           w' = formatJSONError w http.StatusInternalServerError e
           /\ http.status w' = http.StatusInternalServerError
           /\ http.sentBody w' = errorBody http.StatusInternalServerError e
       | (events, None) =>
           match marshalEvents events with
           | (_, Some e) =>
               w' = formatJSONError w http.StatusInternalServerError e
               /\ http.status w' = http.StatusInternalServerError
               /\ http.sentBody w' = errorBody http.StatusInternalServerError e
           | (data, None) =>
               http.status w' = http.StatusOK
               /\ http.sentBody w' = data
               /\ http.sentHeader w' !! "Content-Type"
                  = Some (default [] (http.header (http.client w) !! "Content-Type")
                            ++ ["application/json"])%list
           end
       end.
Proof.
  intros Hm Hid Ht Hq Hl Ho Hw Hup.
  rewrite (handleEvent_get_associate s w r σ id Hm Hid Ht). rewrite Hq, Hl, Ho.
  assert (Herr : forall e,
            http.status (formatJSONError w http.StatusInternalServerError e)
            = http.StatusInternalServerError
            /\ http.sentBody (formatJSONError w http.StatusInternalServerError e)
               = errorBody http.StatusInternalServerError e).
  { intros e.
    destruct (formatJSONError_response w http.StatusInternalServerError e Hw)
      as (Hs & _ & Hb). auto. }
  destruct (GetEvents (db s) limit offset) as [events [e|]].
  - eexists. split; [reflexivity|]. split; [reflexivity|apply Herr].
  - destruct (marshalEvents events) as [data [e|]].
    + eexists. split; [reflexivity|]. split; [reflexivity|apply Herr].
    + cbv zeta.
      destruct (writeJSON_response w data
                  (query (QueryGetEvents limit offset) σ) Hw Hup)
        as (w' & Hwr & Hs & Hb & Hh).
      exists w'. rewrite Hwr. auto.
Qed.

End Handlers.

(** ** What a request can do *)

Section Outcomes.
Context `{Externals}.

Lemma int64Of_range (p : string) (v : Z) :
  int64Of p = Some v -> - 2 ^ 63 <= v < 2 ^ 63.
Proof.
  unfold int64Of. destruct (base10 p) as [x|]; [|discriminate].
  destruct (_ && _) eqn:Hb; [|discriminate]. intros [= <-].
  apply andb_prop in Hb as [Hlo Hhi].
  apply Z.leb_le in Hlo. apply Z.ltb_lt in Hhi. auto.
Qed.

Lemma paramInt_range params key default l :
  paramInt params key default = (l, None) -> - 2 ^ 63 <= l < 2 ^ 63.
Proof.
  unfold paramInt. intros Hp.
  set (p := if decide (url.Get params key = "") then default
            else url.Get params key) in *.
  pose proof (ParseInt_int64Of p) as Hspec.
  destruct (int64Of p) as [v|] eqn:Hv.
  - apply int64Of_range in Hv. congruence.
  - destruct Hspec as (n & kind & Hspec). congruence.
Qed.

(** X6: what the channel handler can do with a request.  On a working
    connection that has sent nothing it returns, and either the answer has
    status 200, its body is the JSON object of one of the two targets,
    that target is counted once and the database was asked once, for the
    count of the module of the query and the organization of the
    identity; or the answer has status 400 or 500 and nothing else
    happened: no count lookup, no counter, no log line. *)
Theorem handleChannel_outcomes (s : Server) w r σ :
  http.unsent w -> http.linkUp w ->
  exists w' σ',
    handleChannel s w r σ = Done (w', σ')
    /\ ((exists target,
           (target = "/release" \/ target = "/testing")
           /\ http.status w' = http.StatusOK
           /\ http.sentBody w' = channelBody target
           /\ requestsTotal σ' = (requestsTotal σ ++ [target])%list
           /\ queries σ'
              = (queries σ
                 ++ [QueryCount (url.Get (url.Query Quote (URL r)) "module")
                       (identity.OrgID (identity.Identity_ (GetIdentity r).1))])%list)
        \/ ((http.status w' = http.StatusBadRequest
             \/ http.status w' = http.StatusInternalServerError)
            /\ σ' = σ)).
Proof.
  intros Hw Hup.
  assert (Herr : forall code message,
            exists w' σ',
              Done (formatJSONError w code message, σ) = Done (w', σ')
              /\ http.status w' = code /\ σ' = σ).
  { intros code message. eexists _, _. split; [reflexivity|].
    split; [|reflexivity]. now apply formatJSONError_response. }
  unfold handleChannel. set (module := url.Get _ "module").
  rewrite length_lt_1. destruct (bool_decide (module = "")).
  { destruct (Herr http.StatusBadRequest "missing required parameter: 'module'")
      as (w' & σ' & Heq & Hs & Hσ). exists w', σ'. auto. }
  destruct (GetIdentity r) as [id [e|]]; cbn [fst].
  { destruct (Herr http.StatusInternalServerError e)
      as (w' & σ' & Heq & Hs & Hσ). exists w', σ'. auto. }
  destruct (decide (identity.OrgID (identity.Identity_ id) = "")).
  { destruct (Herr http.StatusBadRequest "missing org_id identity field")
      as (w' & σ' & Heq & Hs & Hσ). exists w', σ'. auto. }
  destruct (Count (db s) module (identity.OrgID (identity.Identity_ id)))
    as [count err].
  set (target := if 0 <? count then "/testing" else "/release").
  assert (Htarget : target = "/release" \/ target = "/testing")
    by (unfold target; destruct (0 <? count); auto).
  assert (Hbody : (if 0 <? count then mkResponse "/testing"
                   else mkResponse "/release") = mkResponse target)
    by (unfold target; destruct (0 <? count); reflexivity).
  rewrite Hbody.
  assert (Hm : marshalResponse (mkResponse target) = (channelBody target, None))
    by (destruct Htarget as [-> | ->]; reflexivity).
  rewrite Hm. cbn [response_URL].
  match goal with
  | |- context [writeOrLog _ ?d ?σ1] =>
      destruct (writeJSON_response w d σ1 Hw Hup) as (w' & Hwr & Hs & Hb & _)
  end.
  eexists w', _. rewrite Hwr. split; [reflexivity|]. left. exists target.
  repeat split; try assumption; destruct err; reflexivity.
Qed.

(** X7: what the event handler can do with a request.  If it returns on a
    working connection that has sent nothing, then the counter of targets
    and the log are as before, and one of four cases holds: a POST was
    answered 201; a GET was answered 400, 401 or 500 before the store was
    reached; a GET was answered 200 or 500 after one query of the store,
    whose limit and offset are in the signed 64-bit range; any other
    method was answered 405.  Only the third case reaches the database. *)
Theorem handleEvent_outcomes (s : Server) w r σ w' σ' :
  http.unsent w -> http.linkUp w ->
  handleEvent s w r σ = Done (w', σ') ->
  requestsTotal σ' = requestsTotal σ
  /\ entries σ' = entries σ
  /\ ((Method r = http.MethodPost
       /\ http.status w' = http.StatusCreated /\ queries σ' = queries σ)
      \/ (Method r = http.MethodGet
          /\ (http.status w' = http.StatusBadRequest
              \/ http.status w' = http.StatusUnauthorized
              \/ http.status w' = http.StatusInternalServerError)
          /\ queries σ' = queries σ)
      \/ (Method r = http.MethodGet
          /\ (http.status w' = http.StatusOK
              \/ http.status w' = http.StatusInternalServerError)
          /\ exists limit offset,
               queries σ' = (queries σ ++ [QueryGetEvents limit offset])%list
               /\ - 2 ^ 63 <= limit < 2 ^ 63
               /\ - 2 ^ 63 <= offset < 2 ^ 63)
      \/ (Method r <> http.MethodPost /\ Method r <> http.MethodGet
          /\ http.status w' = http.StatusMethodNotAllowed
          /\ queries σ' = queries σ)).
Proof.
  intros Hw Hup.
  assert (Hst : forall code message,
            http.status (formatJSONError w code message) = code)
    by (intros; now apply formatJSONError_response).
  unfold handleEvent.
  destruct (decide (Method r = http.MethodPost)) as [Hpost|Hpost].
  { intros [= <- <-]. repeat split. left. repeat split; [exact Hpost|].
    unfold http.status. rewrite client_WriteHeader. unfold http.conn_WriteHeader.
    destruct Hw as [-> _]. reflexivity. }
  destruct (decide (Method r = http.MethodGet)) as [Hget|Hget].
  2:{ intros [= <- <-]. repeat split. do 3 right. repeat split; auto. }
  destruct (GetIdentity r) as [id [e|]].
  { intros [= <- <-]. repeat split. right; left. repeat split; auto. }
  destruct (identity.Type_ (identity.Identity_ id)) as [type|]; [|discriminate].
  destruct (decide (type <> "Associate")).
  { intros [= <- <-]. repeat split. right; left. repeat split; auto. }
  destruct (url.ParseQuery Quote (url.RawQuery (URL r))) as [params [e|]].
  { intros [= <- <-]. repeat split. right; left. repeat split; auto. }
  destruct (paramInt params "limit" "-1") as [limit [e|]] eqn:Hl.
  { intros [= <- <-]. repeat split. right; left. repeat split; auto. }
  destruct (paramInt params "offset" "0") as [offset [e|]] eqn:Ho.
  { intros [= <- <-]. repeat split. right; left. repeat split; auto. }
  apply paramInt_range in Hl. apply paramInt_range in Ho.
  destruct (GetEvents (db s) limit offset) as [events [e|]].
  { intros [= <- <-]. repeat split. right; right; left.
    split; [exact Hget|]. split; [auto|]. exists limit, offset. auto. }
  destruct (marshalEvents events) as [data [e|]].
  { intros [= <- <-]. repeat split. right; right; left.
    split; [exact Hget|]. split; [auto|]. exists limit, offset. auto. }
  destruct (writeJSON_response w data (query (QueryGetEvents limit offset) σ)
              Hw Hup) as (w1 & Hwr & Hs & _).
  rewrite Hwr. intros [= <- <-]. repeat split. right; right; left.
  split; [exact Hget|]. split; [auto|]. exists limit, offset. auto.
Qed.

End Outcomes.

(** ** More on byte strings *)

Lemma list_ascii_of_string_app (a b : string) :
  list_ascii_of_string (a +:+ b)
  = (list_ascii_of_string a ++ list_ascii_of_string b)%list.
Proof.
  induction a as [|x a IH]; [reflexivity|].
  rewrite append_cons. cbn [list_ascii_of_string app]. now rewrite IH.
Qed.

Lemma endsWithSlash_app (a : string) (x : ascii) (b : string) :
  endsWithSlash (a +:+ String x b) = endsWithSlash (String x b).
Proof.
  unfold endsWithSlash. rewrite list_ascii_of_string_app.
  cbn [list_ascii_of_string]. now rewrite last_app_cons.
Qed.

Lemma length_append (a b : string) :
  String.length (a +:+ b) = (String.length a + String.length b)%nat.
Proof.
  induction a as [|x a IH]; [reflexivity|].
  rewrite append_cons. cbn [String.length]. now rewrite IH.
Qed.

Lemma prefix_cons (x y : ascii) (a s : string) :
  String.prefix (String x a) (String y s) = true <-> x = y /\ String.prefix a s = true.
Proof.
  cbn [String.prefix]. destruct (ascii_dec x y) as [->|Hne].
  - tauto.
  - split; [discriminate|]. intros [Heq _]. contradiction.
Qed.

Lemma prefix_refl (s : string) : String.prefix s s = true.
Proof.
  induction s as [|x s IH]; [reflexivity|]. apply prefix_cons. auto.
Qed.

Lemma prefix_length (a s : string) :
  String.prefix a s = true -> (String.length a <= String.length s)%nat.
Proof.
  revert s. induction a as [|x a IH]; intros s Hp; [cbn; lia|].
  destruct s as [|y s]; [discriminate|].
  apply prefix_cons in Hp as [_ Hp]. apply IH in Hp. cbn [String.length]. lia.
Qed.

(** Two prefixes of a text that have the same length are equal. *)
Lemma prefix_same_length (a b s : string) :
  String.prefix a s = true -> String.prefix b s = true ->
  String.length a = String.length b -> a = b.
Proof.
  revert b s. induction a as [|x a IH]; intros [|y b] s Ha Hb Hlen;
    try discriminate; [reflexivity|].
  destruct s as [|z s]; [discriminate|].
  apply prefix_cons in Ha as [-> Ha]. apply prefix_cons in Hb as [-> Hb].
  f_equal. apply (IH b s Ha Hb). cbn [String.length] in Hlen. lia.
Qed.

Lemma substring_0_length (n : nat) (s : string) :
  String.length (String.substring 0 n s) = Nat.min n (String.length s).
Proof.
  revert s. induction n as [|n IH]; intros [|c s]; cbn; auto.
Qed.

Lemma substring_0_prefix (n : nat) (s : string) :
  String.prefix (String.substring 0 n s) s = true.
Proof.
  revert s. induction n as [|n IH]; intros [|c s]; try reflexivity.
  cbn [String.substring]. apply prefix_cons. auto.
Qed.

(** ** The routing inside a prefix *)

(** A route table without a pattern that ends in a slash has no subtree
    match. *)
Lemma subtreeMatch_none (m : ServeMux) (path : string) :
  (forall p h, m !! p = Some h -> endsWithSlash p = false) ->
  subtreeMatch m path = None.
Proof.
  intros Hno. unfold subtreeMatch.
  assert (Hl : forall e, e ∈ map_to_list m -> endsWithSlash e.1 = false).
  { intros [p h] He. apply elem_of_map_to_list in He. now apply (Hno p h). }
  induction (map_to_list m) as [|e l IH]; [reflexivity|].
  cbn [foldr]. rewrite IH by (intros e' He'; apply Hl; now right).
  rewrite (Hl e) by now left. reflexivity.
Qed.

Section Dispatch.
Context `{Externals}.

(** X8: the API handler of a prefix never fails to be built.  For a prefix
    that begins with a slash, so that neither of its two patterns is
    host-specific, it routes a request whose path is clean, the one that
    the multiplexer does not redirect, by the exact path: the path that
    [path.Join] makes of the prefix and channel runs the channel handler,
    the one of the prefix and event runs the event handler, and every
    other clean path, also one below these two, is answered by
    [http.NotFound]. *)
Theorem handleAPI_dispatch (s : Server) (prefix : string) :
  exists api,
    handleAPI s prefix = Done api
    /\ (String.prefix "/" prefix = true ->
        forall w r σ,
          cleanPath (url.Path (URL r)) = url.Path (URL r) ->
          api w r σ
          = if decide (url.Path (URL r) = path.Join [prefix; "channel"])
            then handleChannel s w r σ
            else if decide (url.Path (URL r) = path.Join [prefix; "event"])
                 then handleEvent s w r σ
                 else NotFound w r σ).
Proof.
  destruct (Join_channel_event prefix) as (Hc & He & Hne).
  destruct (Join_plain_last prefix) as [R HR].
  assert (Hjc : path.Join [prefix; "channel"] = R +:+ "channel")
    by (apply HR; repeat split; discriminate).
  assert (Hje : path.Join [prefix; "event"] = R +:+ "event")
    by (apply HR; repeat split; discriminate).
  unfold handleAPI, HandleFunc.
  rewrite decide_False by exact Hc. rewrite lookup_empty. cbn [bind].
  rewrite decide_False by exact He.
  rewrite lookup_insert_ne by exact Hne. rewrite lookup_empty. cbn [bind].
  eexists. split; [reflexivity|]. intros _ w r σ _. unfold ServeMux_ServeHTTP.
  destruct (decide (url.Path (URL r) = path.Join [prefix; "channel"])) as [->|Hnc].
  { rewrite lookup_insert_ne by congruence. now rewrite lookup_insert_eq. }
  destruct (decide (url.Path (URL r) = path.Join [prefix; "event"])) as [->|Hnv].
  { now rewrite lookup_insert_eq. }
  rewrite lookup_insert_ne by congruence.
  rewrite lookup_insert_ne by congruence. rewrite lookup_empty.
  rewrite subtreeMatch_none; [reflexivity|].
  intros p h Hp.
  destruct (decide (p = path.Join [prefix; "event"])) as [->|Hpe].
  { rewrite Hje. now rewrite endsWithSlash_app. }
  rewrite lookup_insert_ne in Hp by congruence.
  destruct (decide (p = path.Join [prefix; "channel"])) as [->|Hpc].
  { rewrite Hjc. now rewrite endsWithSlash_app. }
  rewrite lookup_insert_ne in Hp by congruence.
  now rewrite lookup_empty in Hp.
Qed.

(** X9: the log line of a request carries at most the first 1024 bytes of
    the recorded response: whatever the wrapped handler wrote, when it
    returns the logging middleware returns too, adds one line after the
    handler's own, and the response field of that line is a prefix of the
    recorded body of at most 1024 bytes, the whole body when that is not
    longer. *)
Theorem log_response_truncated (s : Server) next w r σ rr σ1 :
  next (http.newResponseRecorder w) r σ = Done (rr, σ1) ->
  exists e response,
    log s next w r σ = Done (http.unwrap rr, emit e σ1)
    /\ ("response", logrus.VString response) ∈ logrus.fields e
    /\ (String.length response <= 1024)%nat
    /\ String.prefix response (http.Body rr) = true
    /\ ((String.length (http.Body rr) <= 1024)%nat -> response = http.Body rr).
Proof.
  intros Hn. rewrite (log_line s next w r σ rr σ1 Hn).
  eexists _, (truncateBody (http.Body rr)). split; [reflexivity|].
  split; [cbn [logrus.fields logFields]; set_solver|].
  unfold truncateBody.
  destruct (1024 <? String.length (http.Body rr))%nat eqn:Hlen.
  - apply Nat.ltb_lt in Hlen. rewrite substring_0_length.
    split; [lia|]. split; [apply substring_0_prefix|lia].
  - apply Nat.ltb_ge in Hlen. split; [lia|]. split; [apply prefix_refl|auto].
Qed.

(** ** When the server can be built *)

(** The loop of [routes] panics when a prefix is already registered or
    comes twice. *)
Lemma routes_prefixes_panic (s : Server) (prefixes : list string) :
  forall m : ServeMux,
  (exists prefix, prefix ∈ prefixes /\ is_Some (m !! (prefix +:+ "/")))
  \/ ~ NoDup prefixes ->
  exists msg, routes_prefixes s m prefixes = Panicked msg.
Proof.
  induction prefixes as [|p ps IH]; intros m Hbad.
  - destruct Hbad as [(q & Hq & _)|Hnd]; [inversion Hq|].
    exfalso. apply Hnd. constructor.
  - destruct (handleAPI_Done s p) as [api Hapi].
    cbn [routes_prefixes]. rewrite Hapi. cbn [bind]. unfold HandleFunc.
    rewrite decide_False by apply slash_nonempty.
    destruct (m !! (p +:+ "/")) as [h|] eqn:Hp; [cbn [bind]; eauto|].
    cbn [bind]. apply IH.
    destruct (decide (p ∈ ps)) as [Hin|Hnin].
    { left. exists p. split; [exact Hin|]. rewrite lookup_insert_eq. eauto. }
    destruct Hbad as [(q & Hq & Hsome)|Hnd].
    + left. apply elem_of_cons in Hq as [->|Hq].
      * rewrite Hp in Hsome. now destruct Hsome.
      * exists q. split; [exact Hq|].
        rewrite lookup_insert_ne; [exact Hsome|].
        intros Heq. apply append_snoc_inj in Heq. subst q. contradiction.
    + right. intros Hps. apply Hnd. apply NoDup_cons. auto.
Qed.

(** X10: [NewServer] returns a server exactly when no API root is given
    twice; with a repeated root the second registration of its pattern
    panics.  The server returned holds the database and the address it was
    given. *)
Theorem NewServer_returns (address : string) (apiroots : list string) (d : DB) :
  (NoDup apiroots ->
   exists s, NewServer address apiroots d = Done s
             /\ db s = d /\ addr s = address)
  /\ (~ NoDup apiroots ->
      exists msg, NewServer address apiroots d = Panicked msg).
Proof.
  unfold NewServer, routes, HandleFunc. cbn [mux db addr].
  rewrite decide_False by discriminate. rewrite lookup_empty. cbn [bind].
  split.
  - intros Hnd.
    destruct (routes_prefixes_spec (mkServer ∅ d address) apiroots
                (<["/ping" := handlePing (mkServer ∅ d address)]> ∅) Hnd)
      as (m' & Hm' & _).
    { intros prefix _. rewrite lookup_insert_ne; [apply lookup_empty|].
      intros Heq. symmetry in Heq. now apply slash_ne_ping in Heq. }
    rewrite Hm'. cbn [bind]. eauto.
  - intros Hnd.
    destruct (routes_prefixes_panic (mkServer ∅ d address) apiroots
                (<["/ping" := handlePing (mkServer ∅ d address)]> ∅))
      as [msg Hmsg]; [now right|].
    rewrite Hmsg. cbn [bind]. eauto.
Qed.

End Dispatch.

(** ** The routing of the server *)

(** The subtree match is a registered pattern that ends in a slash, is a
    prefix of the path and is the longest such; there is none exactly when
    no registered pattern qualifies. *)
Lemma subtreeMatch_spec (m : ServeMux) (path : string) :
  match subtreeMatch m path with
  | Some e =>
      m !! e.1 = Some e.2
      /\ endsWithSlash e.1 = true
      /\ String.prefix e.1 path = true
      /\ forall q h, m !! q = Some h -> endsWithSlash q = true ->
                     String.prefix q path = true ->
                     (String.length q <= String.length e.1)%nat
  | None =>
      forall q h, m !! q = Some h -> endsWithSlash q = true ->
                  String.prefix q path = true -> False
  end.
Proof.
  unfold subtreeMatch.
  assert (Hlist :
    match foldr (fun e best =>
                   if endsWithSlash e.1 && String.prefix e.1 path
                      && match best with
                         | Some b => (String.length b.1 <? String.length e.1)%nat
                         | None => true
                         end
                   then Some e else best) None (map_to_list m) with
    | Some e =>
        e ∈ map_to_list m
        /\ endsWithSlash e.1 = true
        /\ String.prefix e.1 path = true
        /\ forall e', e' ∈ map_to_list m -> endsWithSlash e'.1 = true ->
                      String.prefix e'.1 path = true ->
                      (String.length e'.1 <= String.length e.1)%nat
    | None =>
        forall e', e' ∈ map_to_list m -> endsWithSlash e'.1 = true ->
                   String.prefix e'.1 path = true -> False
    end).
  { induction (map_to_list m) as [|e l IH]; cbn [foldr].
    - intros e' He'. inversion He'.
    - destruct (foldr _ None l) as [best|].
      + destruct IH as (Hin & Hends & Hpre & Hmax).
        destruct (endsWithSlash e.1) eqn:He1; cbn [andb].
        2:{ repeat split; auto; [now right|].
            intros e' He' Hends' Hpre'. apply elem_of_cons in He' as [->|He'].
            - congruence.
            - now apply Hmax. }
        destruct (String.prefix e.1 path) eqn:He2; cbn [andb].
        2:{ repeat split; auto; [now right|].
            intros e' He' Hends' Hpre'. apply elem_of_cons in He' as [->|He'].
            - congruence.
            - now apply Hmax. }
        destruct (String.length best.1 <? String.length e.1)%nat eqn:Hlt.
        * apply Nat.ltb_lt in Hlt. repeat split; auto; [now left|].
          intros e' He' Hends' Hpre'. apply elem_of_cons in He' as [->|He'].
          -- lia.
          -- specialize (Hmax e' He' Hends' Hpre'). lia.
        * apply Nat.ltb_ge in Hlt. repeat split; auto; [now right|].
          intros e' He' Hends' Hpre'. apply elem_of_cons in He' as [->|He'].
          -- lia.
          -- now apply Hmax.
      + destruct (endsWithSlash e.1) eqn:He1; cbn [andb].
        2:{ intros e' He' Hends' Hpre'. apply elem_of_cons in He' as [->|He'].
            - congruence.
            - now apply (IH e'). }
        destruct (String.prefix e.1 path) eqn:He2; cbn [andb].
        2:{ intros e' He' Hends' Hpre'. apply elem_of_cons in He' as [->|He'].
            - congruence.
            - now apply (IH e'). }
        repeat split; auto; [now left|].
        intros e' He' Hends' Hpre'. apply elem_of_cons in He' as [->|He'].
        -- lia.
        -- exfalso. now apply (IH e'). }
  destruct (foldr _ None (map_to_list m)) as [[p h]|].
  - destruct Hlist as (Hin & Hends & Hpre & Hmax).
    apply elem_of_map_to_list in Hin. repeat split; auto.
    intros q h' Hq. apply (Hmax (q, h')). now apply elem_of_map_to_list.
  - intros q h' Hq. apply (Hlist (q, h')). now apply elem_of_map_to_list.
Qed.

Lemma endsWithSlash_slash (p : string) : endsWithSlash (p +:+ "/") = true.
Proof. now rewrite endsWithSlash_app. Qed.

Lemma ServeMux_ServeHTTP_eq (m : ServeMux) w r σ :
  ServeMux_ServeHTTP m w r σ
  = match m !! url.Path (URL r) with
    | Some h => h w r σ
    | None =>
        match subtreeMatch m (url.Path (URL r)) with
        | Some e => e.2 w r σ
        | None => NotFound w r σ
        end
    end.
Proof. reflexivity. Qed.

Section Serving.
Context `{Externals}.

(** The route table of a server that [routes] has built. *)
Lemma routes_table (s : Server) (prefixes : list string) s' :
  mux s = ∅ ->
  routes s prefixes = Done s' ->
  mux s' !! "/ping" = Some (handlePing s)
  /\ (forall prefix, prefix ∈ prefixes ->
      exists api, handleAPI s prefix = Done api
                  /\ mux s' !! (prefix +:+ "/") = Some (pipeline s api))
  /\ (forall pattern h, mux s' !! pattern = Some h ->
      pattern = "/ping"
      \/ exists prefix, prefix ∈ prefixes /\ pattern = prefix +:+ "/").
Proof.
  intros Hmux. unfold routes, HandleFunc. rewrite Hmux.
  rewrite decide_False by discriminate. rewrite lookup_empty. cbn [bind].
  set (m0 := <["/ping" := handlePing s]> (∅ : ServeMux)).
  destruct (decide (NoDup prefixes)) as [Hnd|Hnd].
  2:{ destruct (routes_prefixes_panic s prefixes m0) as [msg ->]; [now right|].
      discriminate. }
  destruct (routes_prefixes_spec s prefixes m0 Hnd) as (m' & -> & Hin & Hout).
  { intros prefix _. unfold m0. rewrite lookup_insert_ne; [apply lookup_empty|].
    intros Heq. symmetry in Heq. now apply slash_ne_ping in Heq. }
  cbn [bind]. intros [= <-]. cbn [mux]. split; [|split].
  - rewrite Hout; [apply lookup_insert_eq|].
    intros prefix _ Heq. symmetry in Heq. now apply slash_ne_ping in Heq.
  - exact Hin.
  - intros pattern h Hsome.
    destruct (decide (pattern = "/ping")) as [|Hping]; [now left|]. right.
    destruct (decide (Exists (fun prefix => pattern = prefix +:+ "/") prefixes))
      as [Hex|Hnex].
    + apply Exists_exists in Hex as (prefix & Hp & ->). eauto.
    + exfalso. rewrite Hout in Hsome.
      * unfold m0 in Hsome. rewrite lookup_insert_ne in Hsome by congruence.
        now rewrite lookup_empty in Hsome.
      * intros prefix Hp Heq. apply Hnex, Exists_exists. eauto.
Qed.

Lemma routes_Done (s : Server) (prefixes : list string) :
  mux s = ∅ -> NoDup prefixes -> exists s', routes s prefixes = Done s'.
Proof.
  intros Hmux Hnd. unfold routes, HandleFunc. rewrite Hmux.
  rewrite decide_False by discriminate. rewrite lookup_empty. cbn [bind].
  destruct (routes_prefixes_spec s prefixes (<["/ping" := handlePing s]> ∅) Hnd)
    as (m' & -> & _).
  { intros prefix _. rewrite lookup_insert_ne; [apply lookup_empty|].
    intros Heq. symmetry in Heq. now apply slash_ne_ping in Heq. }
  cbn [bind]. eauto.
Qed.

(** X11: how the server that [routes] has built routes a request by its
    path, when the multiplexer neither redirects the request nor looks at
    its host: every pattern begins with a slash, the request is no
    CONNECT, its host has no slash and its path is clean.  The path /ping
    runs the ping handler, outside the middleware.  Another path that is
    no registered prefix itself, which would be redirected to the prefix
    with a slash, and lies below a registered prefix runs the middleware
    pipeline around the API handler of the longest such prefix.  A path
    that is no registered prefix and lies below none is answered by
    [http.NotFound], outside the middleware, so without a log line. *)
Theorem ServeHTTP_dispatch (s : Server) (prefixes : list string) s' w r σ :
  mux s = ∅ ->
  routes s prefixes = Done s' ->
  let path := url.Path (URL r) in
  (forall prefix, prefix ∈ prefixes ->
                  String.prefix "/" (prefix +:+ "/") = true) ->
  Method r <> "CONNECT" ->
  noSlash (Host r) = true ->
  cleanPath path = path ->
  (path = "/ping" -> ServeHTTP s' w r σ = handlePing s w r σ)
  /\ (path <> "/ping" ->
      (forall q, q ∈ prefixes -> path <> q) ->
      forall prefix,
        prefix ∈ prefixes ->
        String.prefix (prefix +:+ "/") path = true ->
        (forall q, q ∈ prefixes -> String.prefix (q +:+ "/") path = true ->
                   (String.length q <= String.length prefix)%nat) ->
        exists api,
          handleAPI s prefix = Done api
          /\ ServeHTTP s' w r σ
             = metrics s (requestID s (log s (auth s api))) w r σ)
  /\ (path <> "/ping" ->
      (forall q, q ∈ prefixes -> path <> q) ->
      (forall prefix, prefix ∈ prefixes ->
                      String.prefix (prefix +:+ "/") path = false) ->
      ServeHTTP s' w r σ = NotFound w r σ).
Proof.
  intros Hmux Hroutes path _ _ _ _.
  destruct (routes_table s prefixes s' Hmux Hroutes) as (Hping & Hin & Hout).
  unfold ServeHTTP. rewrite ServeMux_ServeHTTP_eq. fold path.
  pose proof (subtreeMatch_spec (mux s') path) as Hsub.
  unfold HandlerFunc in *.
  split; [|split].
  - intros Hpath. rewrite Hpath. now rewrite Hping.
  - intros Hnp _ prefix Hp Hpre Hmax.
    destruct (Hin prefix Hp) as (api & Hapi & Hl).
    exists api. split; [exact Hapi|]. fold (pipeline s api).
    assert (Hsame : forall pattern h,
              mux s' !! pattern = Some h ->
              String.prefix pattern path = true ->
              (String.length (prefix +:+ "/") <= String.length pattern)%nat ->
              pattern <> "/ping" ->
              h = pipeline s api).
    { intros pattern h Hpat Hpp Hlen Hne.
      destruct (Hout pattern h Hpat) as [|(q & Hq & ->)]; [contradiction|].
      specialize (Hmax q Hq Hpp). rewrite !length_append in Hlen.
      assert (Heq : q +:+ "/" = prefix +:+ "/").
      { apply (prefix_same_length _ _ path Hpp Hpre).
        rewrite !length_append. lia. }
      rewrite Heq in Hpat.
      pose proof (eq_trans (eq_sym Hpat) Hl) as Hh. now injection Hh. }
    match goal with
    | |- match ?x with Some _ => _ | None => _ end = _ =>
        destruct x as [h|] eqn:Hexact
    end.
    + rewrite (Hsame path h Hexact (prefix_refl path)
                 (prefix_length _ _ Hpre) Hnp). reflexivity.
    + destruct (subtreeMatch (mux s') path) as [[p h]|].
      * destruct Hsub as (Hl' & Hends & Hpp & Hlong). cbn [fst snd] in *.
        rewrite (Hsame p h Hl' Hpp); [reflexivity| |].
        -- apply (Hlong _ _ Hl); [apply endsWithSlash_slash|exact Hpre].
        -- intros ->. discriminate.
      * exfalso. apply (Hsub _ _ Hl); [apply endsWithSlash_slash|exact Hpre].
  - intros Hnp _ Hnone.
    assert (Hno : forall pattern h,
              mux s' !! pattern = Some h ->
              String.prefix pattern path = true -> pattern <> "/ping" -> False).
    { intros pattern h Hpat Hpp Hne.
      destruct (Hout pattern h Hpat) as [|(q & Hq & ->)]; [contradiction|].
      rewrite (Hnone q Hq) in Hpp. discriminate. }
    match goal with
    | |- match ?x with Some _ => _ | None => _ end = _ =>
        destruct x as [h|] eqn:Hexact
    end.
    + exfalso. apply (Hno path h Hexact (prefix_refl path) Hnp).
    + destruct (subtreeMatch (mux s') path) as [[p h]|]; [|reflexivity].
      destruct Hsub as (Hl' & Hends & Hpp & _). cbn [fst snd] in *.
      exfalso. apply (Hno p h Hl' Hpp). intros ->. discriminate.
Qed.

(** ** The logging middleware around the handlers of this file *)

Lemma formatJSONError_recorder w code0 b code message :
  formatJSONError (http.responseRecorder w code0 b) code message
  = http.responseRecorder (formatJSONError w code message) code
      (b +:+ errorBody code message).
Proof.
  unfold formatJSONError. cbn [http.with_Header http.WriteHeader http.Write].
  destruct (http.Write _ (errorBody code message)). reflexivity.
Qed.

Lemma writeOrLog_recorder w code b data σ :
  writeOrLog (http.responseRecorder w code b) data σ
  = (http.responseRecorder (writeOrLog w data σ).1 code (b +:+ data),
     (writeOrLog w data σ).2).
Proof.
  unfold writeOrLog. cbn [http.Write].
  destruct (http.Write w data) as [w' [e|]]; reflexivity.
Qed.

Lemma writesThrough_handlePing (s : Server) : writesThrough (handlePing s).
Proof.
  intros w r σ code b. unfold handlePing. rewrite writeOrLog_recorder.
  destruct (writeOrLog w "OK" σ). eauto.
Qed.

Ltac through :=
  cbn [http.with_Header http.WriteHeader];
  rewrite ?formatJSONError_recorder, ?writeOrLog_recorder;
  try match goal with
      | |- context [writeOrLog ?w ?d ?σ] => destruct (writeOrLog w d σ)
      end;
  eauto.

Lemma writesThrough_handleChannel (s : Server) : writesThrough (handleChannel s).
Proof.
  intros w r σ code b. unfold handleChannel.
  destruct (_ <? 1)%nat; [through|].
  destruct (GetIdentity r) as [id [e|]]; [through|].
  destruct (decide _) as [Ho|Ho]; [through|].
  destruct (Count _ _ _) as [count err].
  destruct (marshalResponse _) as [data [e|]]; through.
Qed.

Lemma writesThrough_handleEvent (s : Server) : writesThrough (handleEvent s).
Proof.
  intros w r σ code b. unfold handleEvent.
  destruct (decide (Method r = http.MethodPost)) as [Hp|Hp]; [through|].
  destruct (decide (Method r = http.MethodGet)) as [Hg|Hg]; [|through].
  destruct (GetIdentity r) as [id [e|]]; [through|].
  destruct (identity.Type_ _) as [type|]; [|reflexivity].
  destruct (decide (type <> "Associate")) as [Ht|Ht]; [through|].
  destruct (url.ParseQuery _ _) as [params [e|]]; [through|].
  destruct (paramInt params "limit" "-1") as [limit [e|]]; [through|].
  destruct (paramInt params "offset" "0") as [offset [e|]]; [through|].
  destruct (GetEvents _ _ _) as [events [e|]]; [through|].
  destruct (marshalEvents events) as [data [e|]]; through.
Qed.

Lemma log_through (s : Server) (h : HandlerFunc) w r σ :
  writesThrough h ->
  match h w r σ with
  | Done (w', σ') => exists e, log s h w r σ = Done (w', emit e σ')
  | Panicked msg => log s h w r σ = Panicked msg
  end.
Proof.
  intros Hthrough. unfold log, http.newResponseRecorder.
  specialize (Hthrough w r σ http.StatusOK "").
  destruct (h w r σ) as [[w' σ']|msg].
  - destruct Hthrough as (code' & b' & ->). cbn [http.unwrap]. eauto.
  - now rewrite Hthrough.
Qed.

(** X12: the logging middleware does not change what a handler of this
    file does.  Around the ping, channel or event handler it gives the
    writer back as the handler alone leaves it, with the same writes to the
    client, and the same effects followed by exactly one log line; when the
    handler panics, the panic passes through and no line is logged. *)
Theorem log_transparent (s : Server) (h : HandlerFunc) w r σ :
  h ∈ [handlePing s; handleChannel s; handleEvent s] ->
  match h w r σ with
  | Done (w', σ') => exists e, log s h w r σ = Done (w', emit e σ')
  | Panicked msg => log s h w r σ = Panicked msg
  end.
Proof.
  intros Hh. apply log_through.
  apply elem_of_cons in Hh as [->|Hh]; [apply writesThrough_handlePing|].
  apply elem_of_cons in Hh as [->|Hh]; [apply writesThrough_handleChannel|].
  apply elem_of_cons in Hh as [->|Hh]; [apply writesThrough_handleEvent|].
  inversion Hh.
Qed.

End Serving.

(** * The further properties at concrete requests *)

Lemma handlePing_response_witness :
  exists w',
    handlePing (H:=sample) (sampleServer (failingDB 0)) http.fresh
      (sampleRequest "DELETE" "/ping" "module=x" noIdentity) emptyWorld
    = Done (w', emptyWorld)
    /\ http.status w' = http.StatusOK
    /\ http.sentBody w' = "OK".
Proof.
  exact (handlePing_response (H:=sample) (sampleServer (failingDB 0)) http.fresh
           (sampleRequest "DELETE" "/ping" "module=x" noIdentity) emptyWorld
           (conj eq_refl eq_refl)).
Defined.

Lemma handleChannel_write_failure_witness :
  exists w',
    handleChannel (H:=sample) (sampleServer (failingDB 1)) brokenWriter
      channelRequest emptyWorld
    = Done (w', log_Error (cannotWrite "write: broken pipe")
                  (incRequests "/testing"
                     (log_Error "sql: database is closed"
                        (query (QueryCount "insights-core" "acct-1")
                           emptyWorld)))).
Proof.
  apply (handleChannel_write_failure (H:=sample) (sampleServer (failingDB 1))
           brokenWriter channelRequest emptyWorld
           (identity.mkXRHID (identity.mkIdentity "acct-1" (Some "User")))
           1 (Some "sql: database is closed") "write: broken pipe"); ground.
Defined.

Lemma handleEvent_get_identity_error_witness :
  handleEvent (H:=sample) (sampleServer (countingDB 0)) http.fresh
    (sampleRequest "GET" "/api/event" "limit=abc" noIdentity) emptyWorld
  = Done (formatJSONError (H:=sample) http.fresh
            http.StatusInternalServerError "missing identity header",
          emptyWorld)
  /\ (http.unsent http.fresh -> http.linkUp http.fresh ->
      responseOf (handleEvent (H:=sample) (sampleServer (countingDB 0))
                    http.fresh
                    (sampleRequest "GET" "/api/event" "limit=abc" noIdentity)
                    emptyWorld)
      = Some (http.StatusInternalServerError,
              sampleErrorBody 500 "missing identity header")).
Proof.
  apply (handleEvent_get_identity_error (H:=sample)
           (sampleServer (countingDB 0)) http.fresh
           (sampleRequest "GET" "/api/event" "limit=abc" noIdentity) emptyWorld
           (identity.mkXRHID (identity.mkIdentity "" None))
           "missing identity header"); ground.
Defined.

Lemma handleEvent_get_query_error_witness :
  handleEvent (H:=sample) (sampleServer (countingDB 0)) http.fresh
    (listEvents "limit=5&offset=0&tag=%zz" (Some "Associate")) emptyWorld
  = Done (formatJSONError (H:=sample) http.fresh http.StatusBadRequest
            ("invalid URL escape " +:+ sampleQuote "%zz"),
          emptyWorld)
  /\ (http.unsent http.fresh -> http.linkUp http.fresh ->
      responseOf (handleEvent (H:=sample) (sampleServer (countingDB 0))
                    http.fresh
                    (listEvents "limit=5&offset=0&tag=%zz" (Some "Associate"))
                    emptyWorld)
      = Some (http.StatusBadRequest,
              sampleErrorBody 400 ("invalid URL escape " +:+ sampleQuote "%zz"))).
Proof.
  apply (handleEvent_get_query_error (H:=sample)
           (sampleServer (countingDB 0)) http.fresh
           (listEvents "limit=5&offset=0&tag=%zz" (Some "Associate")) emptyWorld
           (identity.mkXRHID (identity.mkIdentity "acct-1" (Some "Associate")))
           (url.ParseQuery sampleQuote "limit=5&offset=0&tag=%zz").1
           ("invalid URL escape " +:+ sampleQuote "%zz")); ground.
Defined.

Lemma handleEvent_get_listing_witness :
  exists w',
    handleEvent (H:=sample) (sampleServer (countingDB 0)) http.fresh
      (listEvents "limit=25&offset=50" (Some "Associate")) emptyWorld
    = Done (w', query (QueryGetEvents 25 50) emptyWorld)
    /\ http.status w' = http.StatusOK
    /\ http.sentBody w' = (sampleMarshalEvents ["first"; "second"]).1
    /\ http.sentHeader w' !! "Content-Type"
       = Some (default [] (http.header (http.client http.fresh) !! "Content-Type")
                 ++ ["application/json"])%list.
Proof.
  apply (handleEvent_get_listing (H:=sample) (sampleServer (countingDB 0))
           http.fresh (listEvents "limit=25&offset=50" (Some "Associate"))
           emptyWorld
           (identity.mkXRHID (identity.mkIdentity "acct-1" (Some "Associate")))
           (url.ParseQuery sampleQuote "limit=25&offset=50").1 25 50); ground.
Defined.

Lemma handleChannel_outcomes_witness :
  exists w' σ',
    handleChannel (H:=sample) (sampleServer (failingDB 0)) http.fresh
      (sampleRequest "GET" "/api/channel" "module=" (identityOf "acct-1" None))
      emptyWorld
    = Done (w', σ')
    /\ ((exists target,
           (target = "/release" \/ target = "/testing")
           /\ http.status w' = http.StatusOK
           /\ http.sentBody w' = channelBody target
           /\ requestsTotal σ' = (requestsTotal emptyWorld ++ [target])%list
           /\ queries σ'
              = (queries emptyWorld
                 ++ [QueryCount
                       (url.Get (url.Query (Quote (Externals:=sample))
                                   (URL (sampleRequest "GET" "/api/channel"
                                           "module=" (identityOf "acct-1" None))))
                          "module")
                       (identity.OrgID
                          (identity.Identity_
                             (GetIdentity
                                (sampleRequest "GET" "/api/channel" "module="
                                   (identityOf "acct-1" None))).1))])%list)
        \/ ((http.status w' = http.StatusBadRequest
             \/ http.status w' = http.StatusInternalServerError)
            /\ σ' = emptyWorld)).
Proof.
  apply (handleChannel_outcomes (H:=sample) (sampleServer (failingDB 0))
           http.fresh
           (sampleRequest "GET" "/api/channel" "module="
              (identityOf "acct-1" None))
           emptyWorld); ground.
Defined.

Lemma handleEvent_outcomes_witness :
  requestsTotal emptyWorld = requestsTotal emptyWorld
  /\ entries emptyWorld = entries emptyWorld
  /\ ((Method putEvent = http.MethodPost
       /\ http.status (formatJSONError (H:=sample) http.fresh
                         http.StatusMethodNotAllowed "error: 'PUT' not allowed")
          = http.StatusCreated
       /\ queries emptyWorld = queries emptyWorld)
      \/ (Method putEvent = http.MethodGet
          /\ (http.status (formatJSONError (H:=sample) http.fresh
                             http.StatusMethodNotAllowed
                             "error: 'PUT' not allowed")
              = http.StatusBadRequest
              \/ http.status (formatJSONError (H:=sample) http.fresh
                                http.StatusMethodNotAllowed
                                "error: 'PUT' not allowed")
                 = http.StatusUnauthorized
              \/ http.status (formatJSONError (H:=sample) http.fresh
                                http.StatusMethodNotAllowed
                                "error: 'PUT' not allowed")
                 = http.StatusInternalServerError)
          /\ queries emptyWorld = queries emptyWorld)
      \/ (Method putEvent = http.MethodGet
          /\ (http.status (formatJSONError (H:=sample) http.fresh
                             http.StatusMethodNotAllowed
                             "error: 'PUT' not allowed")
              = http.StatusOK
              \/ http.status (formatJSONError (H:=sample) http.fresh
                                http.StatusMethodNotAllowed
                                "error: 'PUT' not allowed")
                 = http.StatusInternalServerError)
          /\ exists limit offset,
               queries emptyWorld
               = (queries emptyWorld ++ [QueryGetEvents limit offset])%list
               /\ - 2 ^ 63 <= limit < 2 ^ 63
               /\ - 2 ^ 63 <= offset < 2 ^ 63)
      \/ (Method putEvent <> http.MethodPost /\ Method putEvent <> http.MethodGet
          /\ http.status (formatJSONError (H:=sample) http.fresh
                            http.StatusMethodNotAllowed
                            "error: 'PUT' not allowed")
             = http.StatusMethodNotAllowed
          /\ queries emptyWorld = queries emptyWorld)).
Proof.
  apply (handleEvent_outcomes (H:=sample) (sampleServer (countingDB 0))
           http.fresh putEvent emptyWorld
           (formatJSONError (H:=sample) http.fresh http.StatusMethodNotAllowed
              "error: 'PUT' not allowed")
           emptyWorld); ground.
Defined.

Lemma log_response_truncated_witness :
  exists e response,
    log (H:=sample) (sampleServer (countingDB 0))
      (handlePing (sampleServer (countingDB 0))) http.fresh
      (sampleRequest "GET" "/ping" "" noIdentity) emptyWorld
    = Done (http.unwrap (http.Write (http.newResponseRecorder http.fresh) "OK").1,
            emit e emptyWorld)
    /\ ("response", logrus.VString response) ∈ logrus.fields e
    /\ (String.length response <= 1024)%nat
    /\ String.prefix response
         (http.Body (http.Write (http.newResponseRecorder http.fresh) "OK").1)
       = true
    /\ ((String.length
           (http.Body (http.Write (http.newResponseRecorder http.fresh) "OK").1)
         <= 1024)%nat ->
        response
        = http.Body (http.Write (http.newResponseRecorder http.fresh) "OK").1).
Proof.
  apply (log_response_truncated (H:=sample) (sampleServer (countingDB 0))
           (handlePing (sampleServer (countingDB 0))) http.fresh
           (sampleRequest "GET" "/ping" "" noIdentity) emptyWorld
           (http.Write (http.newResponseRecorder http.fresh) "OK").1
           emptyWorld).
  reflexivity.
Defined.

Lemma handleAPI_dispatch_witness :
  exists api,
    handleAPI (H:=sample) (sampleServer (countingDB 2)) "/api" = Done api
    /\ api http.fresh channelRequest emptyWorld
       = handleChannel (sampleServer (countingDB 2)) http.fresh channelRequest
           emptyWorld.
Proof.
  destruct (handleAPI_dispatch (H:=sample) (sampleServer (countingDB 2)) "/api")
    as (api & Hapi & Hroute).
  exists api. split; [exact Hapi|].
  rewrite (Hroute eq_refl http.fresh channelRequest emptyWorld eq_refl).
  destruct (decide (url.Path (URL channelRequest)
                    = path.Join ["/api"; "channel"])) as [_|Hne];
    [reflexivity|].
  exfalso. apply Hne. reflexivity.
Defined.

Lemma NewServer_returns_witness :
  (exists s, NewServer (H:=sample) ":8080" ["/api"; "/r/insights/platform"]
               (countingDB 0) = Done s
             /\ db s = countingDB 0 /\ addr s = ":8080")
  /\ (exists msg, NewServer (H:=sample) ":8080" ["/api"; "/v1"; "/api"]
                    (countingDB 0) = Panicked msg).
Proof.
  split.
  - apply (proj1 (NewServer_returns (H:=sample) ":8080"
                    ["/api"; "/r/insights/platform"] (countingDB 0))).
    apply (bool_decide_unpack _). vm_compute. exact I.
  - apply (proj2 (NewServer_returns (H:=sample) ":8080"
                    ["/api"; "/v1"; "/api"] (countingDB 0))).
    intros Hnd. apply (bool_decide_pack _) in Hnd. vm_compute in Hnd. exact Hnd.
Defined.

Lemma ServeHTTP_dispatch_witness :
  match routes (H:=sample) (sampleServer (countingDB 3))
          ["/api"; "/r/insights/platform"] with
  | Done s' =>
      exists api,
        handleAPI (H:=sample) (sampleServer (countingDB 3)) "/api" = Done api
        /\ ServeHTTP s' http.fresh channelRequest emptyWorld
           = metrics (sampleServer (countingDB 3))
               (requestID (sampleServer (countingDB 3))
                  (log (sampleServer (countingDB 3))
                     (auth (sampleServer (countingDB 3)) api)))
               http.fresh channelRequest emptyWorld
  | Panicked _ => False
  end.
Proof.
  destruct (routes (H:=sample) (sampleServer (countingDB 3))
              ["/api"; "/r/insights/platform"]) as [s'|msg] eqn:Hroutes.
  - assert (Hrooted : forall prefix,
              prefix ∈ ["/api"; "/r/insights/platform"] ->
              String.prefix "/" (prefix +:+ "/") = true).
    { intros prefix Hp.
      apply elem_of_cons in Hp as [->|Hp]; [reflexivity|].
      apply elem_of_cons in Hp as [->|Hp]; [reflexivity|inversion Hp]. }
    assert (Hconnect : Method channelRequest <> "CONNECT") by discriminate.
    apply (proj1 (proj2 (ServeHTTP_dispatch (H:=sample)
                           (sampleServer (countingDB 3))
                           ["/api"; "/r/insights/platform"] s'
                           http.fresh channelRequest emptyWorld
                           eq_refl Hroutes Hrooted Hconnect
                           eq_refl eq_refl))).
    + ground.
    + intros q Hq.
      apply elem_of_cons in Hq as [->|Hq]; [discriminate|].
      apply elem_of_cons in Hq as [->|Hq]; [discriminate|inversion Hq].
    + set_solver.
    + ground.
    + intros q Hq Hpre.
      apply elem_of_cons in Hq as [->|Hq]; [cbn; lia|].
      apply elem_of_cons in Hq as [->|Hq]; [vm_compute in Hpre; discriminate|].
      inversion Hq.
  - destruct (routes_Done (H:=sample) (sampleServer (countingDB 3))
                ["/api"; "/r/insights/platform"] eq_refl) as [s' Hs'].
    + apply (bool_decide_unpack _). vm_compute. exact I.
    + rewrite Hs' in Hroutes. discriminate.
Defined.

Lemma log_transparent_witness :
  match handleChannel (H:=sample) (sampleServer (countingDB 2)) http.fresh
          channelRequest emptyWorld with
  | Done (w', σ') =>
      exists e,
        log (sampleServer (countingDB 2))
          (handleChannel (sampleServer (countingDB 2))) http.fresh
          channelRequest emptyWorld
        = Done (w', emit e σ')
  | Panicked msg =>
      log (sampleServer (countingDB 2))
        (handleChannel (sampleServer (countingDB 2))) http.fresh
        channelRequest emptyWorld
      = Panicked msg
  end.
Proof.
  apply (log_transparent (H:=sample) (sampleServer (countingDB 2))
           (handleChannel (sampleServer (countingDB 2))) http.fresh
           channelRequest emptyWorld).
  set_solver.
Defined.
